(** * generateCsv: a shallow embedding of [generateCsv.py]

    The script opens [test_large.csv] for writing, draws six random values
    per iteration, formats them as six text fields and hands them to a
    semicolon-delimited [csv.writer]; when the [with] block is left it
    prints one completion line.

    The embedding keeps the script's structure: a process-wide random
    source, a file system, and standard output are threaded through a small
    state-and-exception monad; the library calls the script makes
    ([random.randint], [datetime + timedelta], [strftime], [csv.writer],
    [open]/[write]/[close], [print]) are modelled after the behaviour of the
    Python runtime. *)

From Stdlib Require Import ZArith Lia List Ascii String.
From Stdlib Require Import Decimal DecimalString DecimalZ DecimalPos.
From stdpp Require Import base option list strings gmap.

Open Scope Z_scope.

(** ** Text helpers *)

Module Text.

Definition CR : ascii := ascii_of_nat 13.
Definition LF : ascii := ascii_of_nat 10.
Definition DQUOTE : ascii := ascii_of_nat 34.

Definition CRLF : string := String CR (String LF EmptyString).

(** [sep.join(parts)] *)
Fixpoint join (sep : string) (parts : list string) : string :=
  match parts with
  | [] => EmptyString
  | [p] => p
  | p :: rest => p +:+ sep +:+ join sep rest
  end.

(** [''.join(parts)] *)
Fixpoint concat_all (parts : list string) : string :=
  match parts with
  | [] => EmptyString
  | p :: rest => p +:+ concat_all rest
  end.

(** [c in s] *)
Fixpoint contains (c : ascii) (s : string) : bool :=
  match s with
  | EmptyString => false
  | String a rest => Ascii.eqb a c || contains c rest
  end.

(** [all(p(c) for c in s)] *)
Fixpoint all_chars (p : ascii -> bool) (s : string) : bool :=
  match s with
  | EmptyString => true
  | String a rest => p a && all_chars p rest
  end.

(** [s.replace(c, r)] for a one-character needle. *)
Fixpoint replace_char (c : ascii) (r : string) (s : string) : string :=
  match s with
  | EmptyString => EmptyString
  | String a rest =>
      if Ascii.eqb a c then r +:+ replace_char c r rest
      else String a (replace_char c r rest)
  end.

(** [s.split(c)]: the pieces between the occurrences of [c]; always at
    least one piece. *)
Fixpoint split_on (c : ascii) (s : string) : list string :=
  match s with
  | EmptyString => [EmptyString]
  | String a rest =>
      if Ascii.eqb a c then EmptyString :: split_on c rest
      else match split_on c rest with
           | [] => [String a EmptyString]
           | p :: ps => String a p :: ps
           end
  end.

(** The lines of a text whose line terminator is CRLF.  [cur] is the line
    read so far; a trailing piece without terminator counts as a line when
    it is not empty. *)
Fixpoint lines_from (cur : string) (s : string) : list string :=
  match s with
  | EmptyString => if String.eqb cur EmptyString then [] else [cur]
  | String a rest =>
      match rest with
      | String b rest' =>
          if Ascii.eqb a CR && Ascii.eqb b LF
          then cur :: lines_from EmptyString rest'
          else lines_from (cur +:+ String a EmptyString) rest
      | EmptyString => [cur +:+ String a EmptyString]
      end
  end.

Definition lines (s : string) : list string := lines_from EmptyString s.

Definition is_digit (c : ascii) : bool :=
  (48 <=? nat_of_ascii c)%nat && (nat_of_ascii c <=? 57)%nat.

(** [\d+] on the whole string *)
Definition is_digits1 (s : string) : bool :=
  negb (String.eqb s EmptyString) && all_chars is_digit s.

(** [s.removeprefix(p)] when [s.startswith(p)] *)
Fixpoint strip_prefix (p s : string) : option string :=
  match p with
  | EmptyString => Some s
  | String a p' =>
      match s with
      | EmptyString => None
      | String b s' => if Ascii.eqb a b then strip_prefix p' s' else None
      end
  end.

(** [s.zfill(width)] for a string without sign. *)
Definition zfill (width : nat) (s : string) : string :=
  String.concat EmptyString (replicate (width - String.length s)%nat "0"%string) +:+ s.

End Text.

(** ** Integers as text: [str(n)] and [int(s)] *)

Module PyInt.

(** [str(n)], also what [f"{n}"] inserts: decimal digits, a leading minus
    sign for negative numbers, "0" for zero. *)
Definition str (n : Z) : string := NilZero.string_of_int (Z.to_int n).

(** [int(s)] for a string the decimal reader accepts. *)
Definition parse (s : string) : option Z :=
  match NilZero.int_of_string s with
  | Some d => Some (Z.of_int d)
  | None => None
  end.

(** The integer embedded in a string of the shape [prefix\d+]:
    [re.fullmatch(prefix + r"(\d+)", s)] followed by [int] of the group. *)
Definition match_prefix_int (prefix s : string) : option Z :=
  match Text.strip_prefix prefix s with
  | Some ds => if Text.is_digits1 ds then parse ds else None
  | None => None
  end.

End PyInt.

(** ** The proleptic Gregorian calendar of [datetime]

    [datetime(2000,1,1) + timedelta(days=d)] converts the date to its
    ordinal (day 1 is 0001-01-01), adds [d], and converts back; the result
    must have an ordinal in [1, 3652059] (years 1 to 9999), otherwise
    [OverflowError] is raised.  The time of day stays at midnight throughout
    and [strftime("%Y-%m-%d")] does not print it, so a datetime is modelled
    by its date. *)

Module Calendar.

Record date := Date { year : Z; month : Z; day : Z }.

Definition DAYS_IN_MONTH : list Z :=
  [-1; 31; 28; 31; 30; 31; 30; 31; 31; 30; 31; 30; 31].

Definition DAYS_BEFORE_MONTH : list Z :=
  [-1; 0; 31; 59; 90; 120; 151; 181; 212; 243; 273; 304; 334].

Definition table (t : list Z) (i : Z) : Z := nth (Z.to_nat i) t (-1).

Definition is_leap (y : Z) : bool :=
  (y mod 4 =? 0) && (negb (y mod 100 =? 0) || (y mod 400 =? 0)).

Definition days_before_year (y : Z) : Z :=
  let y' := y - 1 in y' * 365 + y' / 4 - y' / 100 + y' / 400.

Definition days_in_month (y m : Z) : Z :=
  if (m =? 2) && is_leap y then 29 else table DAYS_IN_MONTH m.

Definition days_before_month (y m : Z) : Z :=
  table DAYS_BEFORE_MONTH m + (if (2 <? m) && is_leap y then 1 else 0).

Definition ymd2ord (dt : date) : Z :=
  days_before_year (year dt) + days_before_month (year dt) (month dt) + day dt.

Definition DI400Y : Z := 146097.
Definition DI100Y : Z := 36524.
Definition DI4Y : Z := 1461.
Definition MAXORDINAL : Z := 3652059.

Definition ord2ymd (ordinal : Z) : date :=
  let n := ordinal - 1 in
  let n400 := n / DI400Y in
  let n := n mod DI400Y in
  let y := n400 * 400 + 1 in
  let n100 := n / DI100Y in
  let n := n mod DI100Y in
  let n4 := n / DI4Y in
  let n := n mod DI4Y in
  let n1 := n / 365 in
  let n := n mod 365 in
  let y := y + n100 * 100 + n4 * 4 + n1 in
  if (n1 =? 4) || (n100 =? 4) then Date (y - 1) 12 31
  else
    let leapyear := (n1 =? 3) && (negb (n4 =? 24) || (n100 =? 3)) in
    let m := Z.shiftr (n + 50) 5 in
    let preceding :=
      table DAYS_BEFORE_MONTH m + (if (2 <? m) && leapyear then 1 else 0) in
    if n <? preceding then
      let m' := m - 1 in
      let preceding' :=
        preceding
        - (table DAYS_IN_MONTH m' + (if (m' =? 2) && leapyear then 1 else 0)) in
      Date y m' (n - preceding' + 1)
    else Date y m (n - preceding + 1).

(** The field checks of the [datetime(y, m, d)] constructor. *)
Definition valid (dt : date) : bool :=
  (1 <=? year dt) && (year dt <=? 9999)
  && (1 <=? month dt) && (month dt <=? 12)
  && (1 <=? day dt) && (day dt <=? days_in_month (year dt) (month dt)).

(** [dt + timedelta(days=d)]; [None] stands for [OverflowError]. *)
Definition add_days (dt : date) (d : Z) : option date :=
  let o := ymd2ord dt + d in
  if (0 <? o) && (o <=? MAXORDINAL) then Some (ord2ymd o) else None.

(** Dates compare as [(year, month, day)] tuples. *)
Definition leb (a b : date) : bool :=
  (year a <? year b)
  || ((year a =? year b)
      && ((month a <? month b)
          || ((month a =? month b) && (day a <=? day b)))).

(** [dt.strftime("%Y-%m-%d")]: year, month and day, zero-padded to 4, 2
    and 2 digits.  (Platforms differ on padding years below 1000; the
    script's years have four digits.) *)
Definition strftime_ymd (dt : date) : string :=
  Text.zfill 4 (PyInt.str (year dt)) +:+ "-"
  +:+ Text.zfill 2 (PyInt.str (month dt)) +:+ "-"
  +:+ Text.zfill 2 (PyInt.str (day dt)).

Definition digits_of_width (w : nat) (s : string) : bool :=
  (String.length s =? w)%nat && Text.all_chars Text.is_digit s.

(** [re.fullmatch(r"(\d{4})-(\d{2})-(\d{2})", s)] with the three groups
    read as integers.  A digit is never a hyphen, so the pattern matches
    exactly when splitting at the hyphens leaves three digit groups of
    widths 4, 2 and 2. *)
Definition fullmatch_ymd (s : string) : option date :=
  match Text.split_on "-" s with
  | [y; m; d] =>
      if digits_of_width 4 y && digits_of_width 2 m && digits_of_width 2 d
      then match PyInt.parse y, PyInt.parse m, PyInt.parse d with
           | Some y', Some m', Some d' => Some (Date y' m' d')
           | _, _, _ => None
           end
      else None
  | _ => None
  end.

End Calendar.

(** ** The [csv] writer *)

Module Csv.

(** The part of a dialect that [writerow] consults under the default
    [QUOTE_MINIMAL] quoting with [doublequote=True] and no escape
    character. *)
Record dialect := Dialect {
  delimiter : ascii;
  quotechar : ascii;
  lineterminator : string
}.

(** [csv.writer(f, delimiter=d)]: the [excel] dialect with its delimiter
    replaced. *)
Definition excel (d : ascii) : dialect :=
  {| delimiter := d; quotechar := Text.DQUOTE; lineterminator := Text.CRLF |}.

Definition special (dl : dialect) (c : ascii) : bool :=
  Ascii.eqb c (delimiter dl) || Ascii.eqb c (quotechar dl)
  || Text.contains c (lineterminator dl).

(** A field is quoted when one of its characters is the delimiter, the
    quote character or a character of the line terminator. *)
Definition needs_quote (dl : dialect) (field : string) : bool :=
  negb (Text.all_chars (fun c => negb (special dl c)) field).

Definition quoted (dl : dialect) (field : string) : string :=
  let q := String (quotechar dl) EmptyString in
  q +:+ Text.replace_char (quotechar dl) (q +:+ q) field +:+ q.

Definition format_field (dl : dialect) (field : string) : string :=
  if needs_quote dl field then quoted dl field else field.

(** The text [writerow] hands to the file's [write]: the formatted fields
    joined by the delimiter, then the line terminator.  A row that is one
    empty field is written as a pair of quotes. *)
Definition format_row (dl : dialect) (fields : list string) : string :=
  match fields with
  | [f] =>
      (if String.eqb f EmptyString then quoted dl f else format_field dl f)
      +:+ lineterminator dl
  | _ =>
      Text.join (String (delimiter dl) EmptyString) (map (format_field dl) fields)
      +:+ lineterminator dl
  end.

(** What a reader of the file sees: the fields of one unquoted line. *)
Definition fields (dl : dialect) (line : string) : list string :=
  Text.split_on (delimiter dl) line.

End Csv.

(** ** The world the script runs in *)

Inductive exn := ValueError | OverflowError | OSError.

Inductive outcome (A : Type) :=
  | Return (a : A)
  | Raise (e : exn).
Arguments Return {A} a.
Arguments Raise {A} e.

(** What the process does that can be observed from outside, in order. *)
Inductive event :=
  | EvOpen (path : string)
  | EvWrite (path data : string)
  | EvClose (path : string)
  | EvPrint (line : string).

(** An open text file: its path and the [newline] argument it was opened
    with. *)
Record file := File { f_path : string; f_newline : option string }.

Record writer := Writer { w_file : file; w_dialect : Csv.dialect }.

(** [fs] maps a path to the text of the file there.  [io_faults] is the
    environment's plan for the file operations still to come: the head says
    whether the next [open], [write] or [close] fails (disk full, permission
    denied, ...); an exhausted plan means no further failure.  [os_linesep]
    is the platform's line separator.  [stdout_fault] says what standard
    output does with a text handed to [print]: [None] when it takes the
    text, [Some e] when writing it raises [e], which is [ValueError] when
    the encoding of standard output cannot encode the text (a
    [UnicodeEncodeError] is a [ValueError]) and [OSError] when the stream is
    broken.  File contents are the text as it stands once flushed; all
    generated text is ASCII, which UTF-8 encodes byte for byte. *)
Record world (G : Type) := World {
  rng : G;
  fs : gmap string string;
  io_faults : list bool;
  os_linesep : string;
  stdout_fault : string -> option exn;
  trace : list event
}.
Arguments World {G}.
Arguments rng {G}.
Arguments fs {G}.
Arguments io_faults {G}.
Arguments os_linesep {G}.
Arguments stdout_fault {G}.
Arguments trace {G}.

Definition set_rng {G} (g : G) (w : world G) : world G :=
  World g (fs w) (io_faults w) (os_linesep w) (stdout_fault w) (trace w).
Definition set_fs {G} (m : gmap string string) (w : world G) : world G :=
  World (rng w) m (io_faults w) (os_linesep w) (stdout_fault w) (trace w).
Definition set_io_faults {G} (fl : list bool) (w : world G) : world G :=
  World (rng w) (fs w) fl (os_linesep w) (stdout_fault w) (trace w).
Definition set_os_linesep {G} (sep : string) (w : world G) : world G :=
  World (rng w) (fs w) (io_faults w) sep (stdout_fault w) (trace w).
Definition set_stdout_fault {G} (so : string -> option exn) (w : world G) : world G :=
  World (rng w) (fs w) (io_faults w) (os_linesep w) so (trace w).
Definition log {G} (e : event) (w : world G) : world G :=
  World (rng w) (fs w) (io_faults w) (os_linesep w) (stdout_fault w) (trace w ++ [e]).

(** The lines printed to standard output so far. *)
Definition stdout {G} (w : world G) : list string :=
  omap (fun e => match e with EvPrint l => Some l | _ => None end) (trace w).

(** No failure is planned for the next [k] file operations. *)
Definition fault_free {G} (k : nat) (w : world G) : bool :=
  forallb negb (take k (io_faults w)).

(** Computations: a state transformer over the world that returns a value or
    raises; the world survives an exception. *)
Definition M (G A : Type) : Type := world G -> outcome A * world G.

#[export] Instance M_ret {G} : MRet (M G) :=
  fun A (a : A) (w : world G) => (Return a, w).

#[export] Instance M_bind {G} : MBind (M G) :=
  fun A B (k : A -> M G B) (c : M G A) (w : world G) =>
    match c w with
    | (Return a, w') => k a w'
    | (Raise e, w') => (Raise e, w')
    end.

Definition raise {G A} (e : exn) : M G A := fun w => (Raise e, w).

(** ** Built-ins *)

(** [io_check] is the point where a file operation can fail. *)
Definition io_check {G} : M G unit := fun w =>
  match io_faults w with
  | true :: rest => (Raise OSError, set_io_faults rest w)
  | false :: rest => (Return tt, set_io_faults rest w)
  | [] => (Return tt, w)
  end.

(** [open(path, 'w', newline=nl, encoding='utf-8')]: creates the file or
    truncates the one that is there. *)
Definition open_w {G} (path : string) (nl : option string) : M G file :=
  io_check;;
  ((fun w =>
      (Return (File path nl),
       log (EvOpen path) (set_fs (<[path := EmptyString]> (fs w)) w))) : M G file).

(** Newline translation of a text file on output: with [newline=None] every
    LF becomes [os.linesep]; with [newline=''] or LF nothing is translated;
    any other value replaces every LF. *)
Definition translate_newlines (nl : option string) (linesep data : string) : string :=
  match nl with
  | None => Text.replace_char Text.LF linesep data
  | Some s =>
      if String.eqb s EmptyString || String.eqb s (String Text.LF EmptyString)
      then data
      else Text.replace_char Text.LF s data
  end.

(** [f.write(data)] *)
Definition f_write {G} (f : file) (data : string) : M G unit :=
  io_check;;
  ((fun w =>
      let out := translate_newlines (f_newline f) (os_linesep w) data in
      let old := default EmptyString (fs w !! f_path f) in
      (Return tt,
       log (EvWrite (f_path f) out) (set_fs (<[f_path f := old +:+ out]> (fs w)) w)))
   : M G unit).

(** [f.close()] *)
Definition f_close {G} (f : file) : M G unit :=
  io_check;;
  ((fun w => (Return tt, log (EvClose (f_path f)) w)) : M G unit).

(** [with open(...) as f: body]: the file is closed on every way out of the
    body, and an exception of the body goes on to the caller. *)
Definition with_open {G A} (path : string) (nl : option string)
    (body : file -> M G A) : M G A :=
  f ← open_w path nl;
  ((fun w =>
      match body f w with
      | (Return a, w') => (f_close f;; mret a) w'
      | (Raise e, w') =>
          match f_close f w' with
          | (Return _, w'') => (Raise e, w'')
          | (Raise e', w'') => (Raise e', w'')
          end
      end) : M G A).

(** [print(line)]: the line reaches standard output, or writing it raises
    and nothing is printed. *)
Definition print {G} (line : string) : M G unit :=
  fun w =>
    match stdout_fault w line with
    | None => (Return tt, log (EvPrint line) w)
    | Some e => (Raise e, w)
    end.

(** [writer.writerow(fields)] *)
Definition writerow {G} (wr : writer) (fields : list string) : M G unit :=
  f_write (w_file wr) (Csv.format_row (w_dialect wr) fields).

(** [range(n)] *)
Definition range (n : Z) : list Z := map Z.of_nat (seq 0 (Z.to_nat n)).

(** [for x in xs: body(x)] *)
Fixpoint for_each {G} (xs : list Z) (body : Z -> M G unit) : M G unit :=
  match xs with
  | [] => mret tt
  | x :: rest => body x;; for_each rest body
  end.

(** [datetime(y, m, d)] *)
Definition datetime {G} (y m d : Z) : M G Calendar.date :=
  let dt := Calendar.Date y m d in
  if Calendar.valid dt then mret dt else raise ValueError.

(** [dt + timedelta(days=d)] *)
Definition plus_days {G} (dt : Calendar.date) (d : Z) : M G Calendar.date :=
  match Calendar.add_days dt d with
  | Some dt' => mret dt'
  | None => raise OverflowError
  end.

(** ** The script *)

Section Script.

Context {G : Type}.

(** The process-wide generator behind [random.randint]: given the bounds
    and the generator's state it yields the number drawn and the next
    state. *)
Variable randint : Z -> Z -> G -> Z * G.

(** [random.randint(a, b)]; an empty range is a [ValueError]. *)
Definition py_randint (a b : Z) : M G Z := fun w =>
  if a <=? b
  then let '(n, g') := randint a b (rng w) in (Return n, set_rng g' w)
  else (Raise ValueError, w).

(** Lines 8 to 14: the six values of one record, in column order.  The
    loop index [i] is passed in as the loop provides it. *)
Definition generate_record (i : Z) : M G (list string) :=
  epoch ← datetime 2000 1 1;
  offset ← py_randint 0 8000;
  date ← plus_days epoch offset;
  n1 ← py_randint 1 1000000;
  let first := "Name" +:+ PyInt.str n1 in
  n2 ← py_randint 1 1000000;
  let last := "Surname" +:+ PyInt.str n2 in
  n3 ← py_randint 1 1000000;
  let sur := "Patronymic" +:+ PyInt.str n3 in
  n4 ← py_randint 1 1000;
  let city := "City" +:+ PyInt.str n4 in
  n5 ← py_randint 1 100;
  let country := "Country" +:+ PyInt.str n5 in
  mret [Calendar.strftime_ymd date; first; last; sur; city; country].

(** The body of the [for] loop: generate one record and write it. *)
Definition loop_body (wr : writer) (i : Z) : M G unit :=
  row ← generate_record i;
  writerow wr row.

(** Lines 5 to 16 with the path and the record count as parameters. *)
Definition run (output_path : string) (record_count : Z) : M G unit :=
  with_open output_path (Some EmptyString) (fun f =>
    let wr := Writer f (Csv.excel ";") in
    for_each (range record_count) (loop_body wr));;
  print "CSV файл создан.".

(** The script as it stands. *)
Definition main : M G unit := run "test_large.csv" 1000000.

End Script.

(** ** Random sources and worlds for concrete runs *)

(** A scripted source in the manner of a test double: 0 for the day-offset
    draw [randint(0, 8000)], 42 for every other draw. *)
Definition mock_randint (a b : Z) (g : unit) : Z * unit :=
  (if (a =? 0) && (b =? 8000) then 0 else 42, g).

(** A source that always draws the upper bound. *)
Definition upper_randint (a b : Z) (g : unit) : Z * unit := (b, g).

(** A source that always draws the lower bound. *)
Definition lower_randint (a b : Z) (g : unit) : Z * unit := (a, g).

(** A source that breaks the contract of [randint]: a thousand times the
    upper bound. *)
Definition far_randint (a b : Z) (g : unit) : Z * unit := (b * 1000, g).

(** A linear congruential generator reduced into the requested range. *)
Definition lcg_randint (a b : Z) (s : Z) : Z * Z :=
  (a + s mod (b - a + 1), (1103515245 * s + 12345) mod 2147483648).

(** A fresh process on a POSIX platform: empty file system, no failure
    planned, a standard output that takes any text (a UTF-8 terminal),
    nothing printed yet. *)
Definition initial_world {G} (g : G) : world G :=
  World g ∅ [] (String Text.LF EmptyString) (fun _ => None) [].

(** ** Properties the theorems speak about *)

(** The contract of [random.randint(a, b)]: a number [n] with
    [a <= n <= b]. *)
Definition randint_in_range {G} (randint : Z -> Z -> G -> Z * G) : Prop :=
  forall a b g, a <= b -> a <= (randint a b g).1 <= b.


(** The source of the example scenario: 0 for the day offset, 42 for each
    of the five bounded draws. *)
Definition returns_42 {G} (randint : Z -> Z -> G -> Z * G) : Prop :=
  (forall g, (randint 0 8000 g).1 = 0)
  /\ (forall b g, (randint 1 b g).1 = 42).

Definition epoch : Calendar.date := Calendar.Date 2000 1 1.

(** The text of a file that holds the given rows, one per CRLF-terminated
    line, fields joined by semicolons with no quoting. *)
Definition plain_text (rows : list (list string)) : string :=
  Text.concat_all (map (fun r => Text.join ";" r +:+ Text.CRLF) rows).

(** A string is free of the characters that would make the writer quote it
    or that would break a line. *)
Definition plain (s : string) : bool :=
  Text.all_chars
    (fun c => negb (Ascii.eqb c ";" || Ascii.eqb c Text.DQUOTE
                    || Ascii.eqb c Text.CR || Ascii.eqb c Text.LF)) s.

(** The last day the date column can show: the epoch plus 8000 days. *)
Definition last_day : Calendar.date := Calendar.Date 2021 11 26.

Definition date_eqb (a b : Calendar.date) : bool :=
  (Calendar.year a =? Calendar.year b)
  && (Calendar.month a =? Calendar.month b)
  && (Calendar.day a =? Calendar.day b).

(** Everything the date column promises for one day offset, as a check that
    can be run: the addition succeeds, the result is a calendar date that
    many days after the epoch and no later than [hi], and its text has the
    shape dddd-dd-dd, reads back as the same date and needs no quoting. *)
Definition date_check (hi : Calendar.date) (offset : Z) : bool :=
  match Calendar.add_days epoch offset with
  | Some dt =>
      Calendar.valid dt
      && (Calendar.ymd2ord dt =? Calendar.ymd2ord epoch + offset)
      && Calendar.leb epoch dt
      && Calendar.leb dt hi
      && match Calendar.fullmatch_ymd (Calendar.strftime_ymd dt) with
         | Some dt' => date_eqb dt dt'
         | None => false
         end
      && plain (Calendar.strftime_ymd dt)
  | None => false
  end.

(** A row as the generator builds it from six draws within their ranges,
    the first of which is the day offset. *)
Definition is_record_of (offset : Z) (row : list string) : Prop :=
  exists dt n1 n2 n3 n4 n5,
    0 <= offset <= 8000
    /\ Calendar.add_days epoch offset = Some dt
    /\ 1 <= n1 <= 1000000 /\ 1 <= n2 <= 1000000 /\ 1 <= n3 <= 1000000
    /\ 1 <= n4 <= 1000 /\ 1 <= n5 <= 100
    /\ row = [Calendar.strftime_ymd dt;
              "Name" +:+ PyInt.str n1;
              "Surname" +:+ PyInt.str n2;
              "Patronymic" +:+ PyInt.str n3;
              "City" +:+ PyInt.str n4;
              "Country" +:+ PyInt.str n5].

Definition is_record (row : list string) : Prop :=
  exists offset, is_record_of offset row.

(** The line the writer emits for a row that needs no quoting. *)
Definition line_of (row : list string) : string := Text.join ";" row.

Definition completion_message : string := "CSV файл создан.".

(** The events of writing the given rows to the file at [path]. *)
Definition writes (path : string) (rows : list (list string)) : list event :=
  map (fun r => EvWrite path (line_of r +:+ Text.CRLF)) rows.

(** ** The records as a stream *)

Section Stream.

Context {G : Type}.
Variable randint : Z -> Z -> G -> Z * G.

(** What line 8 to 14 make of a generator state: the record (or the
    exception), and the state the generator is left in. *)
Definition record_from (g : G) : outcome (list string) :=
  (generate_record randint 0 (initial_world g)).1.

Definition next_state (g : G) : G :=
  rng (generate_record randint 0 (initial_world g)).2.

(** The first [n] records generated in a row from the state [g], up to the
    first exception. *)
Fixpoint generated (n : nat) (g : G) : list (list string) :=
  match n with
  | O => []
  | S n' =>
      match record_from g with
      | Return row => row :: generated n' (next_state g)
      | Raise _ => []
      end
  end.

(** The six numbers lines 8 to 13 draw, in the order and with the bounds of
    the calls, each from the state the call before it left; and the state
    after the last call. *)
Definition six_draws (g : G) : list Z * G :=
  let r0 := randint 0 8000 g in
  let r1 := randint 1 1000000 r0.2 in
  let r2 := randint 1 1000000 r1.2 in
  let r3 := randint 1 1000000 r2.2 in
  let r4 := randint 1 1000 r3.2 in
  let r5 := randint 1 100 r4.2 in
  ([r0.1; r1.1; r2.1; r3.1; r4.1; r5.1], r5.2).

End Stream.

(** A reader for one record: the day offset of the date in the first field
    and the integers that follow the prefixes of the other five. *)
Definition decode_record (row : list string) : option (list Z) :=
  match row with
  | [d; a; b; c; e; f] =>
      dt ← Calendar.fullmatch_ymd d;
      n1 ← PyInt.match_prefix_int "Name" a;
      n2 ← PyInt.match_prefix_int "Surname" b;
      n3 ← PyInt.match_prefix_int "Patronymic" c;
      n4 ← PyInt.match_prefix_int "City" e;
      n5 ← PyInt.match_prefix_int "Country" f;
      Some [Calendar.ymd2ord dt - Calendar.ymd2ord epoch; n1; n2; n3; n4; n5]
  | _ => None
  end.

(** ** What a computation leaves alone *)

(** Between two worlds nothing was printed, standard output and the
    platform are the same, and no file other than the one at [path] has
    changed. *)
Definition keeps {G} (path : string) (w w' : world G) : Prop :=
  stdout_fault w' = stdout_fault w
  /\ stdout w' = stdout w
  /\ os_linesep w' = os_linesep w
  /\ forall p, p <> path -> fs w' !! p = fs w !! p.

(** An outcome other than [ValueError]. *)
Definition benign {A} (r : outcome A) : Prop :=
  match r with
  | Raise ValueError => False
  | _ => True
  end.

Definition tame {G A} (path : string) (c : M G A) : Prop :=
  forall w, keeps path w (c w).2 /\ benign (c w).1.

(** ** The characters of the file *)

Definition is_ascii (c : ascii) : bool := (nat_of_ascii c <? 128)%nat.

(** A standard output whose encoding is ASCII: printing a text with any
    other character raises [UnicodeEncodeError], a [ValueError]. *)
Definition ascii_stdout (line : string) : option exn :=
  if Text.all_chars is_ascii line then None else Some ValueError.

(** The text of the date for one day offset has ten characters, all
    ASCII. *)
Definition date_text_check (offset : Z) : bool :=
  match Calendar.add_days epoch offset with
  | Some dt =>
      (String.length (Calendar.strftime_ymd dt) =? 10)%nat
      && Text.all_chars is_ascii (Calendar.strftime_ymd dt)
  | None => false
  end.

(** * Properties *)

(** String concatenation unfolds on a constructor of its first argument. *)
#[local] Arguments String.append !s1 s2 / : simpl nomatch.

(** ** Text *)

Section TextFacts.

Import Text.

Lemma append_empty_r (s : string) : s +:+ EmptyString = s.
Proof. induction s as [|a s IH]; simpl; [done | by rewrite IH]. Qed.

Lemma append_assoc (a b c : string) : (a +:+ b) +:+ c = a +:+ (b +:+ c).
Proof. induction a as [|x a IH]; simpl; [done | by rewrite IH]. Qed.

Lemma all_chars_app p (a b : string) :
  all_chars p (a +:+ b) = all_chars p a && all_chars p b.
Proof.
  induction a as [|x a IH]; simpl; [done|].
  rewrite IH. by destruct (p x).
Qed.

Lemma all_chars_impl (p q : ascii -> bool) (s : string) :
  (forall c, p c = true -> q c = true) ->
  all_chars p s = true -> all_chars q s = true.
Proof.
  intros Hpq. induction s as [|x s IH]; simpl; [done|].
  intros [Hx Hs]%andb_prop. rewrite (Hpq _ Hx), (IH Hs). done.
Qed.

Lemma contains_all_chars (c : ascii) (s : string) :
  contains c s = negb (all_chars (fun a => negb (Ascii.eqb a c)) s).
Proof.
  induction s as [|x s IH]; simpl; [done|].
  rewrite IH. by destruct (Ascii.eqb x c).
Qed.

Lemma plain_contains (s : string) :
  plain s = true ->
  contains ";" s = false /\ contains LF s = false
  /\ contains CR s = false /\ contains DQUOTE s = false.
Proof.
  intros Hp. rewrite !contains_all_chars.
  repeat split; apply negb_false_iff; revert Hp;
    apply all_chars_impl; intros c;
    destruct (Ascii.eqb c ";"), (Ascii.eqb c DQUOTE),
      (Ascii.eqb c CR), (Ascii.eqb c LF); done.
Qed.

Lemma plain_app (a b : string) : plain (a +:+ b) = plain a && plain b.
Proof. apply all_chars_app. Qed.

Lemma digit_plain (s : string) : all_chars is_digit s = true -> plain s = true.
Proof.
  apply all_chars_impl.
  intros [[] [] [] [] [] [] [] []]; vm_compute; congruence.
Qed.

Lemma strip_prefix_app (p s : string) : strip_prefix p (p +:+ s) = Some s.
Proof.
  induction p as [|x p IH]; simpl; [done|].
  by rewrite Ascii.eqb_refl.
Qed.

Lemma split_on_single (c : ascii) (s : string) :
  contains c s = false -> split_on c s = [s].
Proof.
  induction s as [|x s IH]; simpl; [done|].
  intros [Hx Hs]%orb_false_elim. by rewrite Hx, (IH Hs).
Qed.

Lemma split_on_cons (c : ascii) (a rest : string) :
  contains c a = false ->
  split_on c (a +:+ String c rest) = a :: split_on c rest.
Proof.
  induction a as [|x a IH]; simpl.
  - intros _. by rewrite Ascii.eqb_refl.
  - intros [Hx Ha]%orb_false_elim. by rewrite Hx, (IH Ha).
Qed.

Lemma split_on_join (c : ascii) (parts : list string) :
  parts <> [] ->
  Forall (fun p => contains c p = false) parts ->
  split_on c (join (String c EmptyString) parts) = parts.
Proof.
  induction parts as [|p [|q rest] IH]; intros Hne Hall; [done| |].
  - simpl. apply split_on_single. by inversion Hall.
  - inversion Hall as [|? ? Hp Hrest]; subst.
    change (join (String c EmptyString) (p :: q :: rest))
      with (p +:+ String c (join (String c EmptyString) (q :: rest))).
    rewrite (split_on_cons _ _ _ Hp). f_equal. by apply IH.
Qed.

Lemma lines_from_step (cur : string) (a : ascii) (s : string) :
  a <> CR -> s <> EmptyString ->
  lines_from cur (String a s) = lines_from (cur +:+ String a EmptyString) s.
Proof.
  intros Ha Hs. destruct s as [|b s]; [done|]. simpl.
  apply Ascii.eqb_neq in Ha. by rewrite Ha.
Qed.

Lemma lines_from_line (cur l rest : string) :
  contains CR l = false ->
  lines_from cur (l +:+ CRLF +:+ rest)
  = (cur +:+ l) :: lines_from EmptyString rest.
Proof.
  revert cur. induction l as [|a l IH]; intros cur Hl.
  - by rewrite append_empty_r.
  - simpl in Hl. apply orb_false_elim in Hl as [Ha Hl].
    change (String a l +:+ CRLF +:+ rest) with (String a (l +:+ CRLF +:+ rest)).
    rewrite lines_from_step.
    + rewrite (IH _ Hl). by rewrite append_assoc.
    + by apply Ascii.eqb_neq.
    + by destruct l.
Qed.

Lemma lines_plain_text (rows : list (list string)) :
  Forall (fun r => contains CR (line_of r) = false) rows ->
  lines (plain_text rows) = map line_of rows.
Proof.
  unfold lines, plain_text.
  induction rows as [|r rows IH]; intros Hall; [done|].
  inversion Hall as [|? ? Hr Hrows]; subst. simpl.
  rewrite append_assoc, (lines_from_line _ _ _ Hr). simpl.
  f_equal. by apply IH.
Qed.

End TextFacts.

(** ** Integers as text *)

Section PyIntFacts.

Import Text PyInt.

Lemma string_of_uint_digits (d : uint) :
  all_chars is_digit (NilEmpty.string_of_uint d) = true.
Proof. induction d; simpl; auto. Qed.

Lemma to_int_nonneg (n : Z) :
  0 <= n -> exists d, Z.to_int n = Pos d /\ d <> Nil.
Proof.
  destruct n as [|p|p]; intros Hn; [| |lia].
  - exists (D0 Nil). by split.
  - exists (Pos.to_uint p). split; [done|]. apply Unsigned.to_uint_nonnil.
Qed.

Lemma str_digits (n : Z) : 0 <= n -> is_digits1 (str n) = true.
Proof.
  intros Hn. destruct (to_int_nonneg n Hn) as (d & Hd & Hnil).
  unfold is_digits1, str. rewrite Hd. simpl.
  destruct d; try done; simpl; by rewrite string_of_uint_digits.
Qed.

Lemma str_plain (n : Z) : 0 <= n -> plain (str n) = true.
Proof.
  intros Hn. apply digit_plain.
  by destruct (andb_prop _ _ (str_digits n Hn)).
Qed.

Lemma parse_str (n : Z) : parse (str n) = Some n.
Proof.
  unfold parse, str. rewrite NilZero.isi.
  - by rewrite DecimalZ.of_to.
  - destruct n; simpl; try done. intros [= H]. by apply Unsigned.to_uint_nonnil in H.
  - destruct n; simpl; try done. intros [= H]. by apply Unsigned.to_uint_nonnil in H.
Qed.

(** A prefix followed by the digits of [n] matches [prefix\d+], and the
    integer read back is [n]. *)
Lemma match_prefix_int_str (prefix : string) (n : Z) :
  0 <= n -> match_prefix_int prefix (prefix +:+ str n) = Some n.
Proof.
  intros Hn. unfold match_prefix_int.
  by rewrite strip_prefix_app, (str_digits n Hn), parse_str.
Qed.

End PyIntFacts.

(** ** The date column *)

Section DateFacts.

Lemma date_eqb_eq (a b : Calendar.date) : date_eqb a b = true -> a = b.
Proof.
  destruct a, b. unfold date_eqb. simpl.
  intros [[?%Z.eqb_eq ?%Z.eqb_eq]%andb_prop ?%Z.eqb_eq]%andb_prop.
  by subst.
Qed.

(** The check holds on each of the 8001 offsets the draw can return. *)
Lemma date_check_offsets : forallb (date_check last_day) (range 8001) = true.
Proof. vm_compute. reflexivity. Qed.

Lemma date_check_all (offset : Z) :
  0 <= offset <= 8000 -> date_check last_day offset = true.
Proof.
  intros Ho. apply (proj1 (forallb_forall _ _) date_check_offsets).
  apply in_map_iff. exists (Z.to_nat offset). split; [lia|].
  apply in_seq. lia.
Qed.

Lemma date_of_offset (offset : Z) :
  0 <= offset <= 8000 ->
  exists dt,
    Calendar.add_days epoch offset = Some dt
    /\ Calendar.valid dt = true
    /\ Calendar.ymd2ord dt = Calendar.ymd2ord epoch + offset
    /\ Calendar.leb epoch dt = true
    /\ Calendar.leb dt last_day = true
    /\ Calendar.fullmatch_ymd (Calendar.strftime_ymd dt) = Some dt
    /\ plain (Calendar.strftime_ymd dt) = true.
Proof.
  intros Ho. pose proof (date_check_all offset Ho) as Hc.
  unfold date_check in Hc.
  destruct (Calendar.add_days epoch offset) as [dt|]; [|done].
  exists dt.
  repeat match type of Hc with (_ && _ = true) =>
    let H := fresh "H" in apply andb_prop in Hc as [Hc H] end.
  destruct (Calendar.fullmatch_ymd (Calendar.strftime_ymd dt)) as [dt'|] eqn:Hm;
    [|done].
  match goal with H : date_eqb _ _ = true |- _ => apply date_eqb_eq in H; subst dt' end.
  repeat split; try done. by apply Z.eqb_eq.
Qed.

End DateFacts.

(** ** The monad *)

Section MonadFacts.

Context {G : Type}.

Lemma bind_return {A B} (c : M G A) (k : A -> M G B) (w w' : world G) (a : A) :
  c w = (Return a, w') -> (c ≫= k) w = k a w'.
Proof. intros Hc. unfold mbind, M_bind. by rewrite Hc. Qed.

Lemma bind_raise {A B} (c : M G A) (k : A -> M G B) (w w' : world G) (e : exn) :
  c w = (Raise e, w') -> (c ≫= k) w = (Raise e, w').
Proof. intros Hc. unfold mbind, M_bind. by rewrite Hc. Qed.

(** One operation without failure, then [k] more. *)
Lemma fault_free_S (k : nat) (w : world G) :
  fault_free (S k) w = true ->
  io_check w = (Return tt, set_io_faults (drop 1 (io_faults w)) w)
  /\ fault_free k (set_io_faults (drop 1 (io_faults w)) w) = true.
Proof.
  unfold fault_free, io_check. destruct w as [g m fl sep so tr]; simpl.
  destruct fl as [|[] fl]; simpl; try done.
  intros _. by destruct k.
Qed.



End MonadFacts.

(** ** One record *)

Section GeneratorFacts.

Context {G : Type}.
Variable randint : Z -> Z -> G -> Z * G.

Lemma py_randint_ok (a b : Z) (w : world G) :
  a <= b ->
  py_randint randint a b w
  = (Return (randint a b (rng w)).1, set_rng (randint a b (rng w)).2 w).
Proof.
  intros Hab. unfold py_randint. apply Z.leb_le in Hab. rewrite Hab.
  by destruct (randint a b (rng w)).
Qed.

(** The record in terms of the six draws, each made from the state the
    previous one left; it is defined as soon as the date addition is. *)
Lemma generate_record_eq (i : Z) (w : world G) (dt : Calendar.date) :
  let r0 := randint 0 8000 (rng w) in
  let r1 := randint 1 1000000 r0.2 in
  let r2 := randint 1 1000000 r1.2 in
  let r3 := randint 1 1000000 r2.2 in
  let r4 := randint 1 1000 r3.2 in
  let r5 := randint 1 100 r4.2 in
  Calendar.add_days epoch r0.1 = Some dt ->
  generate_record randint i w
  = (Return [Calendar.strftime_ymd dt;
             "Name" +:+ PyInt.str r1.1;
             "Surname" +:+ PyInt.str r2.1;
             "Patronymic" +:+ PyInt.str r3.1;
             "City" +:+ PyInt.str r4.1;
             "Country" +:+ PyInt.str r5.1],
     set_rng r5.2 w).
Proof.
  intros r0 r1 r2 r3 r4 r5 Hdt. unfold generate_record.
  rewrite (bind_return _ _ w w epoch) by done.
  erewrite bind_return by (apply py_randint_ok; lia).
  fold r0.
  erewrite bind_return by (unfold plus_days; by rewrite Hdt).
  erewrite bind_return by (apply py_randint_ok; lia). simpl rng. fold r1.
  erewrite bind_return by (apply py_randint_ok; lia). simpl rng. fold r2.
  erewrite bind_return by (apply py_randint_ok; lia). simpl rng. fold r3.
  erewrite bind_return by (apply py_randint_ok; lia). simpl rng. fold r4.
  erewrite bind_return by (apply py_randint_ok; lia). simpl rng. fold r5.
  reflexivity.
Qed.

(** Under the contract of [randint], from a given generator state the six
    draws succeed and produce a well-formed record; only the generator
    state changes, and the record depends on nothing else in the world. *)
Lemma generate_record_ok (i : Z) (g : G) :
  randint_in_range randint ->
  exists row g',
    (is_record_of (randint 0 8000 g).1 row /\ True)
    /\ forall w, rng w = g ->
         generate_record randint i w = (Return row, set_rng g' w).
Proof.
  intros randint_ok.
  set (r0 := randint 0 8000 g).
  set (r1 := randint 1 1000000 r0.2).
  set (r2 := randint 1 1000000 r1.2).
  set (r3 := randint 1 1000000 r2.2).
  set (r4 := randint 1 1000 r3.2).
  set (r5 := randint 1 100 r4.2).
  assert (H0 : 0 <= r0.1 <= 8000) by (apply randint_ok; lia).
  assert (H1 : 1 <= r1.1 <= 1000000) by (apply randint_ok; lia).
  assert (H2 : 1 <= r2.1 <= 1000000) by (apply randint_ok; lia).
  assert (H3 : 1 <= r3.1 <= 1000000) by (apply randint_ok; lia).
  assert (H4 : 1 <= r4.1 <= 1000) by (apply randint_ok; lia).
  assert (H5 : 1 <= r5.1 <= 100) by (apply randint_ok; lia).
  destruct (date_of_offset r0.1 H0) as (dt & Hdt & _).
  eexists _, r5.2. split.
  - split; [|done]. exists dt, r1.1, r2.1, r3.1, r4.1, r5.1.
    repeat split; first [lia | exact Hdt | reflexivity].
  - intros w <-. by apply generate_record_eq.
Qed.

(** The row of the example scenario. *)
Lemma generate_record_42 (i : Z) (g : G) :
  returns_42 randint ->
  exists row g',
    (is_record_of (randint 0 8000 g).1 row
     /\ row = ["2000-01-01"; "Name42"; "Surname42"; "Patronymic42";
               "City42"; "Country42"])
    /\ forall w, rng w = g ->
         generate_record randint i w = (Return row, set_rng g' w).
Proof.
  intros [Hday H42]. eexists _, _. split; cycle 1.
  - intros w Hw.
    rewrite (generate_record_eq i w epoch) by (by rewrite Hday).
    rewrite !H42, Hw. reflexivity.
  - split; [|reflexivity]. rewrite Hday.
    exists epoch, 42, 42, 42, 42, 42. repeat split; done.
Qed.

End GeneratorFacts.

(** ** Well-formed records as text *)

Section RecordFacts.

Import Text.

Lemma contains_app (c : ascii) (a b : string) :
  contains c (a +:+ b) = contains c a || contains c b.
Proof.
  induction a as [|x a IH]; simpl; [done|].
  rewrite IH. by destruct (Ascii.eqb x c).
Qed.

Lemma contains_join (c : ascii) (sep : string) (parts : list string) :
  contains c sep = false ->
  Forall (fun p => contains c p = false) parts ->
  contains c (join sep parts) = false.
Proof.
  intros Hsep. induction parts as [|p [|q rest] IH]; intros Hall; [done| |].
  - by inversion Hall.
  - inversion Hall as [|? ? Hp Hrest]; subst.
    change (join sep (p :: q :: rest)) with (p +:+ sep +:+ join sep (q :: rest)).
    rewrite !contains_app, Hp, Hsep. simpl. by apply IH.
Qed.

Lemma plain_needs_no_quote (f : string) :
  plain f = true -> Csv.needs_quote (Csv.excel ";") f = false.
Proof.
  intros Hp. unfold Csv.needs_quote. apply negb_false_iff.
  revert Hp. apply all_chars_impl.
  intros [[] [] [] [] [] [] [] []]; vm_compute; congruence.
Qed.

Lemma format_fields_plain (fields : list string) :
  Forall (fun f => plain f = true) fields ->
  map (Csv.format_field (Csv.excel ";")) fields = fields.
Proof.
  induction 1 as [|f fields Hf _ IH]; simpl; [done|].
  unfold Csv.format_field at 1. by rewrite (plain_needs_no_quote f Hf), IH.
Qed.

Lemma is_record_plain (row : list string) :
  is_record row -> Forall (fun f => plain f = true) row.
Proof.
  intros (offset & dt & n1 & n2 & n3 & n4 & n5
          & Ho & Hdt & H1 & H2 & H3 & H4 & H5 & ->).
  destruct (date_of_offset offset Ho) as (dt' & Hdt' & _ & _ & _ & _ & _ & Hplain).
  rewrite Hdt in Hdt'. injection Hdt' as <-.
  repeat constructor; [done|..]; rewrite plain_app, str_plain by lia; done.
Qed.

Lemma is_record_length (row : list string) : is_record row -> length row = 6%nat.
Proof. by intros (? & ? & ? & ? & ? & ? & ? & _ & _ & _ & _ & _ & _ & _ & ->). Qed.

(** The writer formats a well-formed record without quoting. *)
Lemma is_record_format (row : list string) :
  is_record row ->
  Csv.format_row (Csv.excel ";") row = line_of row +:+ CRLF.
Proof.
  intros Hrow. pose proof (is_record_plain row Hrow) as Hplain.
  pose proof (is_record_length row Hrow) as Hlen.
  destruct row as [|f0 [|f1 row]]; [done..|].
  unfold Csv.format_row. by rewrite format_fields_plain.
Qed.

Lemma is_record_no_break (row : list string) :
  is_record row ->
  contains CR (line_of row) = false /\ contains LF (line_of row) = false.
Proof.
  intros Hrow. pose proof (is_record_plain row Hrow) as Hplain.
  split; apply contains_join; try done;
    eapply Forall_impl; try exact Hplain; simpl;
    intros f Hf; by destruct (plain_contains f Hf) as (? & ? & ? & ?).
Qed.

(** Reading a line back splits it into the six fields of its record. *)
Lemma is_record_fields (row : list string) :
  is_record row -> Csv.fields (Csv.excel ";") (line_of row) = row.
Proof.
  intros Hrow. pose proof (is_record_plain row Hrow) as Hplain.
  pose proof (is_record_length row Hrow) as Hlen.
  unfold Csv.fields, line_of. simpl Csv.delimiter.
  apply split_on_join; [by destruct row|].
  eapply Forall_impl; [exact Hplain|]. simpl.
  intros f Hf. by destruct (plain_contains f Hf) as (? & ? & ? & ?).
Qed.

(** A file of well-formed records reads back line by line. *)
Lemma lines_of_records (rows : list (list string)) :
  Forall is_record rows ->
  lines (plain_text rows) = map line_of rows.
Proof.
  intros Hrows. apply lines_plain_text.
  eapply Forall_impl; [exact Hrows|]. simpl.
  intros r Hr. by destruct (is_record_no_break r Hr).
Qed.

End RecordFacts.

(** ** File operations *)

Section IoFacts.

Context {G : Type}.
Implicit Types (w : world G) (p : string).

Lemma stdout_log (e : event) w :
  stdout (log e w)
  = stdout w ++ match e with EvPrint l => [l] | _ => [] end.
Proof.
  unfold stdout, log. simpl. rewrite omap_app. by destruct e.
Qed.


Lemma fault_free_add (a b : nat) w :
  fault_free (a + b) w
  = fault_free a w && fault_free b (set_io_faults (drop a (io_faults w)) w).
Proof.
  unfold fault_free. simpl. generalize (io_faults w) as fl.
  induction a as [|a IH]; intros fl; [done|].
  destruct fl as [|x fl]; simpl.
  - by rewrite take_nil.
  - rewrite IH. by destruct x.
Qed.

Lemma open_w_ok p nl (k : nat) w :
  fault_free (S k) w = true ->
  open_w p nl w
  = (Return (File p nl),
     World (rng w) (<[p := EmptyString]> (fs w)) (drop 1 (io_faults w))
       (os_linesep w) (stdout_fault w) (trace w ++ [EvOpen p])).
Proof.
  intros [Hio _]%fault_free_S. unfold open_w.
  by rewrite (bind_return _ _ _ _ _ Hio).
Qed.

Lemma f_write_ok p (data old : string) (k : nat) w :
  fault_free (S k) w = true ->
  fs w !! p = Some old ->
  f_write (File p (Some EmptyString)) data w
  = (Return tt,
     World (rng w) (<[p := old +:+ data]> (fs w)) (drop 1 (io_faults w))
       (os_linesep w) (stdout_fault w) (trace w ++ [EvWrite p data])).
Proof.
  intros [Hio _]%fault_free_S Hold. unfold f_write.
  rewrite (bind_return _ _ _ _ _ Hio). simpl. by rewrite Hold.
Qed.

Lemma f_close_ok p nl (k : nat) w :
  fault_free (S k) w = true ->
  f_close (File p nl) w
  = (Return tt,
     World (rng w) (fs w) (drop 1 (io_faults w)) (os_linesep w) (stdout_fault w)
       (trace w ++ [EvClose p])).
Proof.
  intros [Hio _]%fault_free_S. unfold f_close.
  by rewrite (bind_return _ _ _ _ _ Hio).
Qed.



End IoFacts.

(** ** The loop and the run *)

Section RunFacts.

Context {G : Type}.
Variable randint : Z -> Z -> G -> Z * G.

(** What is known of every generated record: it is well formed, and it
    has the property [P] besides. *)
Variable P : Z -> list string -> Prop.
Hypothesis gen_ok :
  forall (i : Z) (g : G),
    exists row g',
      (is_record_of (randint 0 8000 g).1 row /\ P (randint 0 8000 g).1 row)
      /\ forall w, rng w = g ->
           generate_record randint i w = (Return row, set_rng g' w).
Implicit Types (w : world G) (p : string).

#[local] Abbreviation body p :=
  (loop_body randint (Writer (File p (Some EmptyString)) (Csv.excel ";"))).

Lemma range_length (n : Z) : length (range n) = Z.to_nat n.
Proof. unfold range. by rewrite length_map, length_seq. Qed.

(** Without a failure the loop over [xs] appends one line per element to
    the open file; the rows depend only on the generator state the loop
    starts from. *)
Lemma loop_ok p (xs : list Z) (g : G) :
  exists rows g',
    length rows = length xs
    /\ Forall is_record rows
    /\ Forall (fun r => exists o, P o r) rows
    /\ forall w old,
         rng w = g ->
         fault_free (length xs) w = true ->
         fs w !! p = Some old ->
         for_each xs (body p) w
         = (Return tt,
            World g' (<[p := old +:+ plain_text rows]> (fs w))
              (drop (length xs) (io_faults w)) (os_linesep w) (stdout_fault w)
              (trace w ++ writes p rows)).
Proof.
  revert g. induction xs as [|x xs IH]; intros g.
  - exists [], g. split; [done|]. split; [done|]. split; [done|].
    intros [g0 m fl sep so tr] old Hg _ Hold. simpl in *. subst g0.
    by rewrite append_empty_r, (insert_id _ _ _ Hold), app_nil_r.
  - destruct (gen_ok x g) as (row & g1 & [Hrow HP] & Hgen).
    apply (ex_intro (fun o => is_record_of o row)) in Hrow. fold (is_record row) in Hrow.
    apply (ex_intro (fun o => P o row)) in HP.
    destruct (IH g1) as (rows & g' & Hlen & Hrows & HPs & Hloop).
    exists (row :: rows), g'. split; [simpl; by rewrite Hlen|].
    split; [by constructor|]. split; [by constructor|].
    intros w old Hg Hff Hold.
    change (length (x :: xs)) with (1 + length xs)%nat in Hff.
    rewrite fault_free_add in Hff. apply andb_prop in Hff as [Hff1 Hff2].
    simpl for_each.
    erewrite bind_return; cycle 1.
    { unfold loop_body. erewrite bind_return by (by apply Hgen).
      unfold writerow. simpl w_file. simpl w_dialect.
      rewrite (is_record_format row Hrow).
      by apply (f_write_ok p _ old 0). }
    erewrite Hloop; [| done | exact Hff2 | by apply lookup_insert_eq].
    simpl. rewrite insert_insert_eq, drop_drop, <- app_assoc.
    change (plain_text (row :: rows))
      with ((line_of row +:+ Text.CRLF) +:+ plain_text rows).
    by rewrite !append_assoc.
Qed.


(** A run without a failing file operation: the file at the path holds
    exactly the rows generated, and the trace is open, one write per row,
    close; then the completion line is printed and the run returns, or
    standard output raises and the run ends in that exception. *)
Lemma run_ok p (N : Z) (g : G) :
  exists rows g',
    length rows = Z.to_nat N
    /\ Forall is_record rows
    /\ Forall (fun r => exists o, P o r) rows
    /\ forall w,
         rng w = g ->
         fault_free (Z.to_nat N + 2) w = true ->
         (stdout_fault w completion_message = None ->
          run randint p N w
          = (Return tt,
             World g' (<[p := plain_text rows]> (fs w))
               (drop (Z.to_nat N + 2) (io_faults w)) (os_linesep w) (stdout_fault w)
               (trace w ++ EvOpen p :: writes p rows
                  ++ [EvClose p; EvPrint completion_message])))
         /\ (forall e,
              stdout_fault w completion_message = Some e ->
              run randint p N w
              = (Raise e,
                 World g' (<[p := plain_text rows]> (fs w))
                   (drop (Z.to_nat N + 2) (io_faults w)) (os_linesep w)
                   (stdout_fault w)
                   (trace w ++ EvOpen p :: writes p rows ++ [EvClose p]))).
Proof.
  destruct (loop_ok p (range N) g) as (rows & g' & Hlen & Hrows & HPs & Hloop).
  rewrite range_length in Hlen, Hloop.
  exists rows, g'. split; [done|]. split; [done|]. split; [done|].
  intros w Hg Hff.
  replace (Z.to_nat N + 2)%nat with (1 + (Z.to_nat N + 1))%nat in Hff by lia.
  rewrite fault_free_add in Hff. apply andb_prop in Hff as [Hff1 Hff2].
  rewrite fault_free_add in Hff2. apply andb_prop in Hff2 as [Hff2 Hff3].
  assert (Hblock :
    with_open p (Some EmptyString) (fun f =>
      let wr := Writer f (Csv.excel ";") in
      for_each (range N) (loop_body randint wr)) w
    = (Return tt,
       World g' (<[p := plain_text rows]> (fs w))
         (drop (Z.to_nat N + 2) (io_faults w)) (os_linesep w) (stdout_fault w)
         (trace w ++ EvOpen p :: writes p rows ++ [EvClose p]))).
  { unfold with_open.
    erewrite bind_return by (by apply (open_w_ok p _ 0)). cbv beta.
    erewrite Hloop; [| done | exact Hff2 | by apply lookup_insert_eq].
    erewrite bind_return by (by apply (f_close_ok p _ 0)).
    unfold mret, M_ret. simpl. do 2 f_equal.
    - by rewrite insert_insert_eq.
    - rewrite !drop_drop. f_equal. lia.
    - by rewrite <- !app_assoc. }
  split.
  - intros Hso. unfold run. rewrite (bind_return _ _ _ _ _ Hblock).
    unfold completion_message in *. unfold print, log. simpl.
    rewrite Hso. do 2 f_equal.
    rewrite <- app_assoc. simpl. by rewrite <- app_assoc.
  - intros e Hso. unfold run. rewrite (bind_return _ _ _ _ _ Hblock).
    unfold completion_message in *. unfold print. simpl. by rewrite Hso.
Qed.


End RunFacts.

(** ** The concrete sources *)

Lemma lcg_in_range : randint_in_range lcg_randint.
Proof.
  intros a b s Hab. unfold lcg_randint. simpl.
  pose proof (Z.mod_pos_bound s (b - a + 1)). lia.
Qed.

Lemma upper_in_range : randint_in_range upper_randint.
Proof. intros a b g Hab. unfold upper_randint. simpl. lia. Qed.


Lemma mock_returns_42 : returns_42 mock_randint.
Proof. split; intros; unfold mock_randint; simpl; done. Qed.

(** With [newline=None] on a platform whose separator is CRLF the writer's
    terminator would be translated a second time; [newline=''] is what
    keeps it as written. *)
Example translate_default_crlf :
  translate_newlines None Text.CRLF ("a;b" +:+ Text.CRLF)
  = "a;b" +:+ String Text.CR Text.CRLF
  /\ translate_newlines (Some EmptyString) Text.CRLF ("a;b" +:+ Text.CRLF)
     = "a;b" +:+ Text.CRLF.
Proof. split; reflexivity. Qed.

(** * The claims *)

Section Claims.

Context {G : Type}.
Variable randint : Z -> Z -> G -> Z * G.
Hypothesis randint_ok : randint_in_range randint.
Implicit Types (w : world G) (path : string) (N : Z).

#[local] Abbreviation gen :=
  (fun i g => generate_record_ok randint i g randint_ok).

(** C1. A run with record count [N] whose file operations all succeed and
    whose completion line standard output takes leaves a file of exactly
    [N] lines at the output path, and every line splits at the semicolons
    into exactly 6 fields. *)
Theorem row_count_invariant path N w :
  fault_free (Z.to_nat N + 2) w = true ->
  stdout_fault w completion_message = None ->
  exists w' content,
    run randint path N w = (Return tt, w')
    /\ fs w' !! path = Some content
    /\ length (Text.lines content) = Z.to_nat N
    /\ Forall (fun l => length (Csv.fields (Csv.excel ";") l) = 6%nat)
         (Text.lines content).
Proof.
  intros Hff Hso.
  destruct (run_ok randint (fun _ _ => True) gen path N (rng w))
    as (rows & g' & Hlen & Hrows & _ & Hrun).
  destruct (Hrun w eq_refl Hff) as [Hok _].
  eexists _, (plain_text rows). split; [by apply Hok|].
  split; [apply lookup_insert_eq|].
  rewrite (lines_of_records rows Hrows), length_map. split; [done|].
  apply Forall_map. eapply Forall_impl; [exact Hrows|]. simpl.
  intros r Hr. by rewrite (is_record_fields r Hr), (is_record_length r Hr).
Qed.

(** C2, as the code has it.  The first field of every generated record is
    the text of a date [dt] that matches dddd-dd-dd and reads back as
    [dt]; [dt] is a valid calendar date, lies exactly [offset] days after
    2000-01-01 where [offset] is the value of the [randint(0, 8000)] draw,
    and lies within 2000-01-01 and 2021-11-26 inclusive. *)
Theorem date_field_range (i : Z) w :
  let offset := (randint 0 8000 (rng w)).1 in
  exists dt rest w',
    generate_record randint i w = (Return (Calendar.strftime_ymd dt :: rest), w')
    /\ Calendar.fullmatch_ymd (Calendar.strftime_ymd dt) = Some dt
    /\ Calendar.valid dt = true
    /\ 0 <= offset <= 8000
    /\ Calendar.ymd2ord dt = Calendar.ymd2ord epoch + offset
    /\ Calendar.leb epoch dt = true
    /\ Calendar.leb dt (Calendar.Date 2021 11 26) = true.
Proof.
  intros offset.
  destruct (gen i (rng w)) as (row & g' & [Hrow _] & Hgen).
  destruct Hrow as (dt & n1 & n2 & n3 & n4 & n5 & Ho & Hdt & _ & _ & _ & _ & _ & ->).
  destruct (date_of_offset _ Ho) as (dt' & Hdt' & Hvalid & Hord & Hlo & Hhi & Hm & _).
  rewrite Hdt in Hdt'. injection Hdt' as <-.
  eexists dt, _, _. split; [by apply Hgen|]. by repeat split; try apply Ho.
Qed.

(** C3. Fields 2 to 6 of every generated record are the prefixes Name,
    Surname, Patronymic, City and Country, each followed by the decimal
    text of an integer drawn from [1,1000000], [1,1000000], [1,1000000],
    [1,1000] and [1,100]; each field matches its pattern prefix-then-digits
    and the integer read back from it is the one drawn. *)
Theorem name_fields_format (i : Z) w :
  exists date n1 n2 n3 n4 n5 w',
    generate_record randint i w
    = (Return [date;
               "Name" +:+ PyInt.str n1;
               "Surname" +:+ PyInt.str n2;
               "Patronymic" +:+ PyInt.str n3;
               "City" +:+ PyInt.str n4;
               "Country" +:+ PyInt.str n5], w')
    /\ (1 <= n1 <= 1000000 /\ 1 <= n2 <= 1000000 /\ 1 <= n3 <= 1000000
        /\ 1 <= n4 <= 1000 /\ 1 <= n5 <= 100)
    /\ PyInt.match_prefix_int "Name" ("Name" +:+ PyInt.str n1) = Some n1
    /\ PyInt.match_prefix_int "Surname" ("Surname" +:+ PyInt.str n2) = Some n2
    /\ PyInt.match_prefix_int "Patronymic" ("Patronymic" +:+ PyInt.str n3) = Some n3
    /\ PyInt.match_prefix_int "City" ("City" +:+ PyInt.str n4) = Some n4
    /\ PyInt.match_prefix_int "Country" ("Country" +:+ PyInt.str n5) = Some n5.
Proof.
  destruct (gen i (rng w)) as (row & g' & [Hrow _] & Hgen).
  destruct Hrow as (dt & n1 & n2 & n3 & n4 & n5 & _ & _ & H1 & H2 & H3 & H4 & H5 & ->).
  eexists _, n1, n2, n3, n4, n5, _. split; [by apply Hgen|].
  split; [done|].
  repeat split; apply match_prefix_int_str; lia.
Qed.

(** C4. With record count 1 and a random source that returns 0 for the
    day-offset draw and 42 for every bounded draw, a run without I/O
    failure, on a standard output that takes the completion line, leaves a
    file whose single line is exactly
    2000-01-01;Name42;Surname42;Patronymic42;City42;Country42. *)
Theorem example_scenario path w :
  returns_42 randint ->
  fault_free 3 w = true ->
  stdout_fault w completion_message = None ->
  exists w' content,
    run randint path 1 w = (Return tt, w')
    /\ fs w' !! path = Some content
    /\ content
       = "2000-01-01;Name42;Surname42;Patronymic42;City42;Country42" +:+ Text.CRLF
    /\ Text.lines content
       = ["2000-01-01;Name42;Surname42;Patronymic42;City42;Country42"].
Proof.
  intros H42 Hff Hso.
  destruct (run_ok randint
              (fun _ row => row = ["2000-01-01"; "Name42"; "Surname42";
                                   "Patronymic42"; "City42"; "Country42"])
              (fun i g => generate_record_42 randint i g H42)
              path 1 (rng w))
    as (rows & g' & Hlen & _ & Hrows & Hrun).
  destruct rows as [|row [|? ?]]; try done.
  apply Forall_singleton in Hrows as [_ ->].
  destruct (Hrun w eq_refl Hff) as [Hok _].
  eexists _, _. split; [by apply Hok|].
  split; [apply lookup_insert_eq|]. split; reflexivity.
Qed.

(** C5. No field of a generated record contains the semicolon, a line
    feed, a carriage return or the quote character, whatever the draws;
    so the writer quotes no field, and the text it writes for the record
    is the six fields joined by semicolons followed by the line
    terminator. *)
Theorem no_quoting_needed (i : Z) w :
  exists row w',
    generate_record randint i w = (Return row, w')
    /\ Forall (fun f =>
                 Text.contains ";" f = false
                 /\ Text.contains Text.LF f = false
                 /\ Text.contains Text.CR f = false
                 /\ Text.contains Text.DQUOTE f = false) row
    /\ Forall (fun f => Csv.format_field (Csv.excel ";") f = f) row
    /\ Csv.format_row (Csv.excel ";") row = Text.join ";" row +:+ Text.CRLF.
Proof.
  destruct (gen i (rng w)) as (row & g' & [Hrow _] & Hgen).
  apply (ex_intro (fun o => is_record_of o row)) in Hrow.
  fold (is_record row) in Hrow.
  pose proof (is_record_plain row Hrow) as Hplain.
  eexists row, _. split; [by apply Hgen|].
  split; [|split].
  - eapply Forall_impl; [exact Hplain|]. apply plain_contains.
  - eapply Forall_impl; [exact Hplain|]. simpl. intros f Hf.
    unfold Csv.format_field. by rewrite (plain_needs_no_quote f Hf).
  - by apply is_record_format.
Qed.

(** C6. Two runs in a row against the same path, without I/O failure and
    on a standard output that takes the completion line:
    after the second run the file at the path holds exactly the rows the
    second run wrote, [N2] lines and nothing of the first run; its
    content is what the second run leaves whatever the file system held
    before it; and no other file has appeared. *)
Theorem overwrite_keeps_last_run path (N1 N2 : Z) w :
  fault_free ((Z.to_nat N1 + 2) + (Z.to_nat N2 + 2)) w = true ->
  stdout_fault w completion_message = None ->
  exists w1 w2 rows,
    run randint path N1 w = (Return tt, w1)
    /\ run randint path N2 w1 = (Return tt, w2)
    /\ length rows = Z.to_nat N2
    /\ Forall is_record rows
    /\ trace w2
       = trace w1 ++ EvOpen path :: writes path rows
           ++ [EvClose path; EvPrint completion_message]
    /\ fs w2 !! path = Some (plain_text rows)
    /\ length (Text.lines (plain_text rows)) = Z.to_nat N2
    /\ (forall m, fs (run randint path N2 (set_fs m w1)).2 !! path
                  = Some (plain_text rows))
    /\ dom (fs w2) = dom (fs w1)
    /\ dom (fs w2) = {[path]} ∪ dom (fs w).
Proof.
  intros Hff Hso.
  rewrite fault_free_add in Hff. apply andb_prop in Hff as [Hff1 Hff2].
  destruct (run_ok randint (fun _ _ => True) gen path N1 (rng w))
    as (rows1 & g1 & _ & _ & _ & Hrun1).
  destruct (Hrun1 w eq_refl Hff1) as [Hok1 _]. specialize (Hok1 Hso).
  match type of Hok1 with _ = (_, ?x) => set (w1 := x) in * end.
  destruct (run_ok randint (fun _ _ => True) gen path N2 g1)
    as (rows & g2 & Hlen & Hrows & _ & Hrun2).
  destruct (Hrun2 w1 eq_refl Hff2) as [Hok2 _]. specialize (Hok2 Hso).
  eexists w1, _, rows. split; [exact Hok1|].
  split; [exact Hok2|].
  split; [done|]. split; [done|]. split; [done|].
  split; [apply lookup_insert_eq|].
  split; [by rewrite (lines_of_records rows Hrows), length_map|].
  split; [|split].
  - intros m.
    destruct (Hrun2 (set_fs m w1) eq_refl Hff2) as [Hok3 _].
    rewrite (Hok3 Hso). apply lookup_insert_eq.
  - simpl. rewrite !dom_insert_L. by rewrite (assoc_L (∪)), (idemp_L (∪)).
  - simpl. rewrite !dom_insert_L. by rewrite (assoc_L (∪)), (idemp_L (∪)).
Qed.


(** C8. The loop index takes no part in the values: from the same state,
    generating a record under any two indices gives the same six fields
    and the same next state, and so does the whole loop body. *)
Theorem index_independent (i j : Z) w :
  generate_record randint i w = generate_record randint j w
  /\ forall wr, loop_body randint wr i w = loop_body randint wr j w.
Proof. split; reflexivity. Qed.

(** C9. Generating a record cannot fail: for every state of the world the
    generator returns a record of six fields.  Each step is defined on
    the inputs it gets: a draw from a non-empty range returns a number of
    that range, the epoch is a valid date, and adding between 0 and 8000
    days to it yields a date. *)
Theorem generation_total (i : Z) w :
  (exists row w',
     generate_record randint i w = (Return row, w') /\ length row = 6%nat)
  /\ (forall a b, a <= b ->
        exists n w', py_randint randint a b w = (Return n, w') /\ a <= n <= b)
  /\ datetime 2000 1 1 w = (Return epoch, w)
  /\ (forall offset, 0 <= offset <= 8000 ->
        exists dt, plus_days epoch offset w = (Return dt, w)).
Proof.
  split; [|split; [|split]].
  - destruct (gen i (rng w)) as (row & g' & [Hrow _] & Hgen).
    apply (ex_intro (fun o => is_record_of o row)) in Hrow.
    eexists row, _. split; [by apply Hgen|]. by apply is_record_length.
  - intros a b Hab. eexists _, _. split; [by apply py_randint_ok|].
    by apply randint_ok.
  - reflexivity.
  - intros offset Ho. destruct (date_of_offset offset Ho) as (dt & Hdt & _).
    exists dt. unfold plus_days. by rewrite Hdt.
Qed.

(** C10. Whatever the platform's line separator, in a run without I/O
    failure on a standard output that takes the completion line, every row
    reaches the file followed by CRLF: the file holds, for each row in turn, the line
    of the row and then the two characters CR LF, each write to the file
    is one such line with its CRLF, and no line contains a CR or LF of
    its own. *)
Theorem rows_end_with_crlf path N (sep : string) w :
  fault_free (Z.to_nat N + 2) w = true ->
  stdout_fault w completion_message = None ->
  exists w' rows,
    run randint path N (set_os_linesep sep w) = (Return tt, w')
    /\ length rows = Z.to_nat N
    /\ fs w' !! path
       = Some (Text.concat_all (map (fun r => line_of r +:+ Text.CRLF) rows))
    /\ trace w'
       = trace w ++ EvOpen path
           :: map (fun r => EvWrite path (line_of r +:+ Text.CRLF)) rows
           ++ [EvClose path; EvPrint completion_message]
    /\ Forall (fun r => Text.contains Text.CR (line_of r) = false
                        /\ Text.contains Text.LF (line_of r) = false) rows.
Proof.
  intros Hff Hso.
  destruct (run_ok randint (fun _ _ => True) gen path N (rng w))
    as (rows & g' & Hlen & Hrows & _ & Hrun).
  destruct (Hrun (set_os_linesep sep w) eq_refl Hff) as [Hok _].
  eexists _, rows. split; [by apply Hok|]. split; [done|].
  split; [apply lookup_insert_eq|]. split; [done|].
  eapply Forall_impl; [exact Hrows|]. apply is_record_no_break.
Qed.

End Claims.

(** * The claims at concrete inputs *)

(** The script as it stands, with the generator seeded with 7: one million
    records into [test_large.csv]. *)
Lemma row_count_invariant_witness :
  randint_in_range lcg_randint
  /\ fault_free (Z.to_nat 1000000 + 2) (initial_world 7) = true
  /\ stdout_fault (initial_world 7) completion_message = None
  /\ exists w' content,
       main lcg_randint (initial_world 7) = (Return tt, w')
       /\ fs w' !! "test_large.csv" = Some content
       /\ length (Text.lines content) = Z.to_nat 1000000
       /\ Forall (fun l => length (Csv.fields (Csv.excel ";") l) = 6%nat)
            (Text.lines content).
Proof.
  split; [exact lcg_in_range|]. split; [vm_compute; reflexivity|].
  split; [reflexivity|].
  apply (row_count_invariant lcg_randint lcg_in_range
           "test_large.csv" 1000000 (initial_world 7));
    [vm_compute; reflexivity | reflexivity].
Defined.

Lemma date_field_range_witness :
  randint_in_range lcg_randint
  /\ let offset := (lcg_randint 0 8000 (rng (initial_world 7))).1 in
     exists dt rest w',
       generate_record lcg_randint 0 (initial_world 7)
       = (Return (Calendar.strftime_ymd dt :: rest), w')
       /\ Calendar.fullmatch_ymd (Calendar.strftime_ymd dt) = Some dt
       /\ Calendar.valid dt = true
       /\ 0 <= offset <= 8000
       /\ Calendar.ymd2ord dt = Calendar.ymd2ord epoch + offset
       /\ Calendar.leb epoch dt = true
       /\ Calendar.leb dt (Calendar.Date 2021 11 26) = true.
Proof.
  split; [exact lcg_in_range|].
  exact (date_field_range lcg_randint lcg_in_range 0 (initial_world 7)).
Defined.

(** The claim with 2021-11-17 as the last day fails: a source that meets
    the contract of [randint] may draw the offset 8000, and the record then
    carries 2021-11-26, which reads back as a date after 2021-11-17. *)
Lemma date_field_range_counterexample :
  randint_in_range upper_randint
  /\ (upper_randint 0 8000 tt).1 = 8000
  /\ generate_record upper_randint 0 (initial_world tt)
     = (Return ["2021-11-26"; "Name1000000"; "Surname1000000";
                "Patronymic1000000"; "City1000"; "Country100"],
        initial_world tt)
  /\ Calendar.fullmatch_ymd "2021-11-26" = Some (Calendar.Date 2021 11 26)
  /\ Calendar.leb (Calendar.Date 2021 11 26) (Calendar.Date 2021 11 17) = false.
Proof.
  split; [exact upper_in_range|]. repeat split; vm_compute; reflexivity.
Qed.

Lemma name_fields_format_witness :
  randint_in_range lcg_randint
  /\ exists date n1 n2 n3 n4 n5 w',
       generate_record lcg_randint 0 (initial_world 7)
       = (Return [date;
                  "Name" +:+ PyInt.str n1;
                  "Surname" +:+ PyInt.str n2;
                  "Patronymic" +:+ PyInt.str n3;
                  "City" +:+ PyInt.str n4;
                  "Country" +:+ PyInt.str n5], w')
       /\ (1 <= n1 <= 1000000 /\ 1 <= n2 <= 1000000 /\ 1 <= n3 <= 1000000
           /\ 1 <= n4 <= 1000 /\ 1 <= n5 <= 100)
       /\ PyInt.match_prefix_int "Name" ("Name" +:+ PyInt.str n1) = Some n1
       /\ PyInt.match_prefix_int "Surname" ("Surname" +:+ PyInt.str n2) = Some n2
       /\ PyInt.match_prefix_int "Patronymic" ("Patronymic" +:+ PyInt.str n3) = Some n3
       /\ PyInt.match_prefix_int "City" ("City" +:+ PyInt.str n4) = Some n4
       /\ PyInt.match_prefix_int "Country" ("Country" +:+ PyInt.str n5) = Some n5.
Proof.
  split; [exact lcg_in_range|].
  exact (name_fields_format lcg_randint lcg_in_range 0 (initial_world 7)).
Defined.

Lemma example_scenario_witness :
  returns_42 mock_randint
  /\ fault_free 3 (initial_world tt) = true
  /\ stdout_fault (initial_world tt) completion_message = None
  /\ exists w' content,
       run mock_randint "test_large.csv" 1 (initial_world tt) = (Return tt, w')
       /\ fs w' !! "test_large.csv" = Some content
       /\ content
          = "2000-01-01;Name42;Surname42;Patronymic42;City42;Country42" +:+ Text.CRLF
       /\ Text.lines content
          = ["2000-01-01;Name42;Surname42;Patronymic42;City42;Country42"].
Proof.
  split; [exact mock_returns_42|]. split; [reflexivity|]. split; [reflexivity|].
  exact (example_scenario mock_randint "test_large.csv" (initial_world tt)
           mock_returns_42 eq_refl eq_refl).
Defined.

Lemma no_quoting_needed_witness :
  randint_in_range lcg_randint
  /\ exists row w',
       generate_record lcg_randint 0 (initial_world 7) = (Return row, w')
       /\ Forall (fun f =>
                    Text.contains ";" f = false
                    /\ Text.contains Text.LF f = false
                    /\ Text.contains Text.CR f = false
                    /\ Text.contains Text.DQUOTE f = false) row
       /\ Forall (fun f => Csv.format_field (Csv.excel ";") f = f) row
       /\ Csv.format_row (Csv.excel ";") row = Text.join ";" row +:+ Text.CRLF.
Proof.
  split; [exact lcg_in_range|].
  exact (no_quoting_needed lcg_randint lcg_in_range 0 (initial_world 7)).
Defined.

(** A first run of five records, then a run of three. *)
Lemma overwrite_keeps_last_run_witness :
  randint_in_range lcg_randint
  /\ fault_free ((Z.to_nat 5 + 2) + (Z.to_nat 3 + 2)) (initial_world 7) = true
  /\ stdout_fault (initial_world 7) completion_message = None
  /\ exists w1 w2 rows,
       run lcg_randint "test_large.csv" 5 (initial_world 7) = (Return tt, w1)
       /\ run lcg_randint "test_large.csv" 3 w1 = (Return tt, w2)
       /\ length rows = Z.to_nat 3
       /\ Forall is_record rows
       /\ trace w2
          = trace w1 ++ EvOpen "test_large.csv" :: writes "test_large.csv" rows
              ++ [EvClose "test_large.csv"; EvPrint completion_message]
       /\ fs w2 !! "test_large.csv" = Some (plain_text rows)
       /\ length (Text.lines (plain_text rows)) = Z.to_nat 3
       /\ (forall m, fs (run lcg_randint "test_large.csv" 3 (set_fs m w1)).2
                       !! "test_large.csv"
                     = Some (plain_text rows))
       /\ dom (fs w2) = dom (fs w1)
       /\ dom (fs w2) = {["test_large.csv"]} ∪ dom (fs (initial_world 7)).
Proof.
  split; [exact lcg_in_range|]. split; [reflexivity|]. split; [reflexivity|].
  exact (overwrite_keeps_last_run lcg_randint lcg_in_range
           "test_large.csv" 5 3 (initial_world 7) eq_refl eq_refl).
Defined.


Lemma generation_total_witness :
  randint_in_range lcg_randint
  /\ (exists row w',
        generate_record lcg_randint 0 (initial_world 7) = (Return row, w')
        /\ length row = 6%nat)
  /\ (exists n w',
        py_randint lcg_randint 1 100 (initial_world 7) = (Return n, w')
        /\ 1 <= n <= 100)
  /\ datetime 2000 1 1 (initial_world 7) = (Return epoch, initial_world 7)
  /\ (exists dt, plus_days epoch 8000 (initial_world 7) = (Return dt, initial_world 7)).
Proof.
  split; [exact lcg_in_range|].
  destruct (generation_total lcg_randint lcg_in_range 0 (initial_world 7))
    as (Hgen & Hdraw & Hepoch & Hplus).
  split; [exact Hgen|]. split; [apply Hdraw; lia|].
  split; [exact Hepoch|]. apply Hplus; lia.
Defined.

(** A run of three records on a platform whose line separator is CRLF. *)
Lemma rows_end_with_crlf_witness :
  randint_in_range lcg_randint
  /\ fault_free (Z.to_nat 3 + 2) (initial_world 7) = true
  /\ stdout_fault (initial_world 7) completion_message = None
  /\ exists w' rows,
       run lcg_randint "test_large.csv" 3
         (set_os_linesep Text.CRLF (initial_world 7)) = (Return tt, w')
       /\ length rows = Z.to_nat 3
       /\ fs w' !! "test_large.csv"
          = Some (Text.concat_all (map (fun r => line_of r +:+ Text.CRLF) rows))
       /\ trace w'
          = trace (initial_world 7) ++ EvOpen "test_large.csv"
              :: map (fun r => EvWrite "test_large.csv" (line_of r +:+ Text.CRLF)) rows
              ++ [EvClose "test_large.csv"; EvPrint completion_message]
       /\ Forall (fun r => Text.contains Text.CR (line_of r) = false
                           /\ Text.contains Text.LF (line_of r) = false) rows.
Proof.
  split; [exact lcg_in_range|]. split; [reflexivity|]. split; [reflexivity|].
  exact (rows_end_with_crlf lcg_randint lcg_in_range
           "test_large.csv" 3 Text.CRLF (initial_world 7) eq_refl eq_refl).
Defined.

(** * Further properties of the script *)

(** ** The rows in generation order *)

Section StreamFacts.

Context {G : Type}.
Variable randint : Z -> Z -> G -> Z * G.
Hypothesis randint_ok : randint_in_range randint.
Implicit Types (w : world G) (p : string) (g : G).

#[local] Abbreviation body p :=
  (loop_body randint (Writer (File p (Some EmptyString)) (Csv.excel ";"))).

Lemma gen_exact (i : Z) g :
  exists row,
    is_record row
    /\ record_from randint g = Return row
    /\ forall w, rng w = g ->
         generate_record randint i w
         = (Return row, set_rng (next_state randint g) w).
Proof.
  destruct (generate_record_ok randint 0 g randint_ok) as (row & g' & [Hrow _] & Hgen).
  exists row. split; [by exists (randint 0 8000 g).1|].
  pose proof (Hgen (initial_world g) eq_refl) as H0.
  unfold record_from, next_state. rewrite H0. split; [done|].
  intros w Hw. exact (Hgen w Hw).
Qed.

Lemma generated_length (n : nat) g : length (generated randint n g) = n.
Proof.
  revert g. induction n as [|n IH]; intros g; [done|]. simpl.
  destruct (gen_exact 0 g) as (row & _ & -> & _). simpl. by rewrite IH.
Qed.

Lemma generated_records (n : nat) g : Forall is_record (generated randint n g).
Proof.
  revert g. induction n as [|n IH]; intros g; [by constructor|]. simpl.
  destruct (gen_exact 0 g) as (row & Hrow & -> & _). by constructor.
Qed.

(** Generating [n + m] records is generating [n] and then [m] more from
    the state reached. *)
Lemma generated_add (n m : nat) g :
  generated randint (n + m) g
  = generated randint n g
    ++ generated randint m (Nat.iter n (next_state randint) g).
Proof.
  revert g. induction n as [|n IH]; intros g; [done|].
  rewrite Nat.iter_succ_r. simpl.
  destruct (gen_exact 0 g) as (row & _ & -> & _). simpl. by rewrite IH.
Qed.

Lemma loop_exact p (xs : list Z) w (old : string) :
  fault_free (length xs) w = true ->
  fs w !! p = Some old ->
  for_each xs (body p) w
  = (Return tt,
     World (Nat.iter (length xs) (next_state randint) (rng w))
       (<[p := old +:+ plain_text (generated randint (length xs) (rng w))]> (fs w))
       (drop (length xs) (io_faults w)) (os_linesep w) (stdout_fault w)
       (trace w ++ writes p (generated randint (length xs) (rng w)))).
Proof.
  revert w old. induction xs as [|x xs IH]; intros w old Hff Hold.
  - destruct w as [g0 m fl sep so tr]. simpl in *.
    by rewrite append_empty_r, (insert_id _ _ _ Hold), app_nil_r.
  - destruct (gen_exact x (rng w)) as (row & Hrow & Hfrom & Hgen).
    change (length (x :: xs)) with (1 + length xs)%nat in Hff.
    rewrite fault_free_add in Hff. apply andb_prop in Hff as [Hff1 Hff2].
    simpl for_each.
    erewrite bind_return; cycle 1.
    { unfold loop_body. erewrite bind_return by (by apply Hgen).
      unfold writerow. simpl w_file. simpl w_dialect.
      rewrite (is_record_format row Hrow).
      by apply (f_write_ok p _ old 0). }
    erewrite IH; [| exact Hff2 | by apply lookup_insert_eq].
    simpl length. rewrite Nat.iter_succ_r. simpl generated. rewrite Hfrom.
    simpl. rewrite insert_insert_eq, drop_drop, <- app_assoc.
    change (plain_text (row :: ?rows))
      with ((line_of row +:+ Text.CRLF) +:+ plain_text rows).
    by rewrite !append_assoc.
Qed.

Lemma block_exact p (N : Z) w :
  fault_free (Z.to_nat N + 2) w = true ->
  with_open p (Some EmptyString) (fun f =>
    let wr := Writer f (Csv.excel ";") in
    for_each (range N) (loop_body randint wr)) w
  = (Return tt,
     World (Nat.iter (Z.to_nat N) (next_state randint) (rng w))
       (<[p := plain_text (generated randint (Z.to_nat N) (rng w))]> (fs w))
       (drop (Z.to_nat N + 2) (io_faults w)) (os_linesep w) (stdout_fault w)
       (trace w ++ EvOpen p :: writes p (generated randint (Z.to_nat N) (rng w))
          ++ [EvClose p])).
Proof.
  intros Hff.
  replace (Z.to_nat N + 2)%nat with (1 + (Z.to_nat N + 1))%nat in Hff by lia.
  rewrite fault_free_add in Hff. apply andb_prop in Hff as [Hff1 Hff2].
  rewrite fault_free_add in Hff2. apply andb_prop in Hff2 as [Hff2 Hff3].
  unfold with_open.
  erewrite bind_return by (by apply (open_w_ok p _ 0)). cbv beta.
  pose proof (loop_exact p (range N)) as Hloop.
  rewrite range_length in Hloop.
  erewrite Hloop; [| exact Hff2 | by apply lookup_insert_eq].
  erewrite bind_return by (by apply (f_close_ok p _ 0)).
  unfold mret, M_ret. simpl. do 2 f_equal.
  - by rewrite insert_insert_eq.
  - rewrite !drop_drop. f_equal. lia.
  - by rewrite <- !app_assoc.
Qed.

Lemma run_exact p (N : Z) w :
  fault_free (Z.to_nat N + 2) w = true ->
  stdout_fault w completion_message = None ->
  run randint p N w
  = (Return tt,
     World (Nat.iter (Z.to_nat N) (next_state randint) (rng w))
       (<[p := plain_text (generated randint (Z.to_nat N) (rng w))]> (fs w))
       (drop (Z.to_nat N + 2) (io_faults w)) (os_linesep w) (stdout_fault w)
       (trace w ++ EvOpen p :: writes p (generated randint (Z.to_nat N) (rng w))
          ++ [EvClose p; EvPrint completion_message])).
Proof.
  intros Hff Hso. unfold run.
  rewrite (bind_return _ _ _ _ _ (block_exact p N w Hff)).
  unfold completion_message in *. unfold print, log. simpl.
  rewrite Hso. do 2 f_equal.
  rewrite <- app_assoc. simpl. by rewrite <- app_assoc.
Qed.

(** The file and the generator after a run without a failing file
    operation, whether or not the completion line could be printed. *)
Lemma run_exact_world p (N : Z) w :
  fault_free (Z.to_nat N + 2) w = true ->
  fs (run randint p N w).2
  = <[p := plain_text (generated randint (Z.to_nat N) (rng w))]> (fs w)
  /\ rng (run randint p N w).2
     = Nat.iter (Z.to_nat N) (next_state randint) (rng w).
Proof.
  intros Hff. unfold run.
  rewrite (bind_return _ _ _ _ _ (block_exact p N w Hff)).
  unfold print. simpl.
  by destruct (stdout_fault w _).
Qed.

End StreamFacts.

(** ** What no run does, whatever the random source *)

Section TameFacts.

Context {G : Type}.
Variable randint : Z -> Z -> G -> Z * G.
Implicit Types (w : world G) (path : string).

Lemma keeps_refl path w : keeps path w w.
Proof. by repeat split. Qed.

Lemma keeps_trans path w1 w2 w3 :
  keeps path w1 w2 -> keeps path w2 w3 -> keeps path w1 w3.
Proof.
  intros (He1 & Ho1 & Hs1 & Hf1) (He2 & Ho2 & Hs2 & Hf2). repeat split.
  - by rewrite He2.
  - by rewrite Ho2.
  - by rewrite Hs2.
  - intros p Hp. by rewrite (Hf2 p Hp), (Hf1 p Hp).
Qed.

Lemma tame_ret {A} path (a : A) : tame (G := G) path (mret a).
Proof. intros w. split; [apply keeps_refl|done]. Qed.

Lemma tame_bind {A B} path (c : M G A) (k : A -> M G B) :
  tame path c -> (forall a, tame path (k a)) -> tame path (c ≫= k).
Proof.
  intros Hc Hk w. unfold mbind, M_bind.
  destruct (Hc w) as [Hkeep Hben].
  destruct (c w) as [[a|e] w1]; simpl in *; [|done].
  destruct (Hk a w1) as [Hkeep' Hben']. split; [|done].
  by apply (keeps_trans path w w1).
Qed.

Lemma tame_io_check path : tame (G := G) path io_check.
Proof.
  intros [g m fl sep so tr]. unfold io_check. simpl.
  destruct fl as [|[] fl]; simpl; by repeat split.
Qed.

Lemma tame_open_w path nl : tame (G := G) path (open_w path nl).
Proof.
  unfold open_w. apply tame_bind; [apply tame_io_check|].
  intros _ w. simpl. split; [|done]. repeat split.
  - by rewrite stdout_log, app_nil_r.
  - intros p Hp. simpl. by rewrite lookup_insert_ne.
Qed.

Lemma tame_f_write (f : file) (data : string) : tame (G := G) (f_path f) (f_write f data).
Proof.
  unfold f_write. apply tame_bind; [apply tame_io_check|].
  intros _ w. simpl. split; [|done]. repeat split.
  - by rewrite stdout_log, app_nil_r.
  - intros p Hp. simpl. by rewrite lookup_insert_ne.
Qed.

Lemma tame_f_close (f : file) : tame (G := G) (f_path f) (f_close f).
Proof.
  unfold f_close. apply tame_bind; [apply tame_io_check|].
  intros _ w. simpl. split; [|done]. repeat split.
  by rewrite stdout_log, app_nil_r.
Qed.

Lemma tame_py_randint path (a b : Z) :
  a <= b -> tame path (py_randint randint a b).
Proof.
  intros Hab w. unfold py_randint. apply Z.leb_le in Hab. rewrite Hab.
  destruct (randint a b (rng w)) as [n g']. simpl. by repeat split.
Qed.

Lemma tame_plus_days path (dt : Calendar.date) (d : Z) :
  tame (G := G) path (plus_days dt d).
Proof.
  unfold plus_days. destruct (Calendar.add_days dt d); [apply tame_ret|].
  intros w. split; [apply keeps_refl|done].
Qed.

(** Generating a record touches nothing but the generator, and the only
    exception it can end in is the [OverflowError] of the date addition. *)
Lemma tame_generate_record path (i : Z) : tame path (generate_record randint i).
Proof.
  unfold generate_record.
  apply tame_bind; [apply tame_ret|]. intros dt.
  apply tame_bind; [by apply tame_py_randint|]. intros offset.
  apply tame_bind; [apply tame_plus_days|]. intros date.
  apply tame_bind; [by apply tame_py_randint|]. intros n1.
  apply tame_bind; [by apply tame_py_randint|]. intros n2.
  apply tame_bind; [by apply tame_py_randint|]. intros n3.
  apply tame_bind; [by apply tame_py_randint|]. intros n4.
  apply tame_bind; [by apply tame_py_randint|]. intros n5.
  apply tame_ret.
Qed.

Lemma tame_for_each path (xs : list Z) (body : Z -> M G unit) :
  (forall i, tame path (body i)) -> tame path (for_each xs body).
Proof.
  intros Hbody. induction xs as [|x xs IH]; simpl; [apply tame_ret|].
  apply tame_bind; [apply Hbody|]. by intros _.
Qed.

Lemma open_w_file path nl w (f : file) :
  (open_w path nl w).1 = Return f -> f_path f = path.
Proof.
  unfold open_w, mbind, M_bind.
  destruct (io_check w) as [[[]|e] w1]; simpl; [|done]. by intros [= <-].
Qed.

Lemma tame_with_open {A} path nl (body : file -> M G A) :
  (forall f, f_path f = path -> tame path (body f)) ->
  tame path (with_open path nl body).
Proof.
  intros Hbody w. unfold with_open.
  destruct (tame_open_w path nl w) as [Hk1 Hb1].
  pose proof (open_w_file path nl w) as Hfile.
  destruct (open_w path nl w) as [[f|e] w1] eqn:Hopen; simpl in *.
  2: { by rewrite (bind_raise _ _ _ _ _ Hopen). }
  rewrite (bind_return _ _ _ _ _ Hopen).
  specialize (Hfile f eq_refl).
  destruct (Hbody f Hfile w1) as [Hk2 Hb2].
  destruct (body f w1) as [[a|e] w2]; simpl in *.
  - destruct (tame_bind (f_path f) (f_close f) (fun _ => mret a)
                (tame_f_close f) (fun _ => tame_ret _ a) w2) as [Hk4 Hb4].
    rewrite Hfile in Hk4. split; [|done].
    eauto using keeps_trans.
  - destruct (tame_f_close f w2) as [Hk4 Hb4]. rewrite Hfile in Hk4.
    destruct (f_close f w2) as [[[]|e'] w3]; simpl in *;
      (split; [eauto using keeps_trans|done]).
Qed.

(** The part of [run] inside the [with] statement. *)
Lemma tame_with_block path (N : Z) :
  tame path
    (with_open path (Some EmptyString) (fun f =>
       let wr := Writer f (Csv.excel ";") in
       for_each (range N) (loop_body randint wr))).
Proof.
  apply tame_with_open. intros f <-. simpl.
  apply tame_for_each. intros i. unfold loop_body.
  apply tame_bind; [apply tame_generate_record|].
  intros row. unfold writerow. simpl. apply tame_f_write.
Qed.

End TameFacts.

(** ** Reading a record back *)

Section DecodeFacts.

Context {G : Type}.
Variable randint : Z -> Z -> G -> Z * G.
Hypothesis randint_ok : randint_in_range randint.

Lemma record_from_draws (g : G) :
  exists row,
    record_from randint g = Return row
    /\ next_state randint g = (six_draws randint g).2
    /\ decode_record row = Some (six_draws randint g).1.
Proof.
  unfold six_draws.
  set (r0 := randint 0 8000 g).
  set (r1 := randint 1 1000000 r0.2).
  set (r2 := randint 1 1000000 r1.2).
  set (r3 := randint 1 1000000 r2.2).
  set (r4 := randint 1 1000 r3.2).
  set (r5 := randint 1 100 r4.2).
  assert (H0 : 0 <= r0.1 <= 8000) by (apply randint_ok; lia).
  assert (H1 : 1 <= r1.1 <= 1000000) by (apply randint_ok; lia).
  assert (H2 : 1 <= r2.1 <= 1000000) by (apply randint_ok; lia).
  assert (H3 : 1 <= r3.1 <= 1000000) by (apply randint_ok; lia).
  assert (H4 : 1 <= r4.1 <= 1000) by (apply randint_ok; lia).
  assert (H5 : 1 <= r5.1 <= 100) by (apply randint_ok; lia).
  destruct (date_of_offset r0.1 H0) as (dt & Hdt & _ & Hord & _ & _ & Hm & _).
  pose proof (generate_record_eq randint 0 (initial_world g) dt Hdt) as Hgen.
  cbv zeta in Hgen. simpl rng in Hgen. fold r0 r1 r2 r3 r4 r5 in Hgen.
  eexists. unfold record_from, next_state. rewrite Hgen.
  split; [reflexivity|]. split; [reflexivity|].
  unfold decode_record. rewrite Hm.
  rewrite (match_prefix_int_str "Name" r1.1) by lia.
  rewrite (match_prefix_int_str "Surname" r2.1) by lia.
  rewrite (match_prefix_int_str "Patronymic" r3.1) by lia.
  rewrite (match_prefix_int_str "City" r4.1) by lia.
  rewrite (match_prefix_int_str "Country" r5.1) by lia.
  cbn [mbind option_bind fst]. rewrite Hord. do 2 f_equal. lia.
Qed.

End DecodeFacts.

(** ** The size and the characters of the text *)

Section SizeFacts.

Import Text.

Lemma length_app (a b : string) :
  String.length (a +:+ b) = (String.length a + String.length b)%nat.
Proof. induction a as [|x a IH]; simpl; [done | by rewrite IH]. Qed.

Lemma string_of_uint_length (d : uint) :
  String.length (NilEmpty.string_of_uint d) = N.to_nat (Unsigned.usize d).
Proof. induction d; simpl; rewrite ?N2Nat.inj_succ; auto. Qed.

(** The decimal form of a positive number has no leading zero. *)
Lemma to_uint_head (p : positive) :
  match Pos.to_uint p with Nil | D0 _ => False | _ => True end.
Proof.
  pose proof (Unsigned.to_of (Pos.to_uint p)) as Hnorm.
  rewrite Unsigned.of_to in Hnorm. simpl in Hnorm.
  pose proof (Unsigned.to_uint_nonnil p) as Hnil.
  pose proof (Unsigned.to_uint_nonzero p) as Hzero.
  destruct (Pos.to_uint p) as [|d| | | | | | | | |] eqn:E; try done.
  rewrite DecimalFacts.unorm_D0 in Hnorm. unfold unorm in Hnorm.
  destruct (nzhead d) as [|u| | | | | | | | |] eqn:Hn; try discriminate Hnorm.
  - injection Hnorm as ->. by apply Hzero.
  - by apply (DecimalFacts.nzhead_nonzero d u).
Qed.

(** A number with [k] digits after its leading one is at least [10^k]. *)
Lemma pos_digits_lower (p : positive) :
  (10 ^ (Unsigned.usize (Pos.to_uint p) - 1) <= N.pos p)%N.
Proof.
  pose proof (to_uint_head p) as Hhead.
  rewrite <- (Unsigned.of_to p).
  destruct (Pos.to_uint p) as [|d|d|d|d|d|d|d|d|d|d]; try done;
    simpl Pos.of_uint; rewrite Unsigned.of_uint_acc_rev;
    simpl Unsigned.usize;
    replace (N.succ (Unsigned.usize d) - 1)%N with (Unsigned.usize d) by lia;
    nia.
Qed.

Lemma str_length_bound (n : Z) (k : N) :
  0 < n < 10 ^ Z.of_N k ->
  (1 <= String.length (PyInt.str n) <= N.to_nat k)%nat.
Proof.
  intros [Hpos Hlt]. destruct n as [|p|p]; try lia.
  unfold PyInt.str. simpl.
  pose proof (to_uint_head p) as Hhead.
  pose proof (pos_digits_lower p) as Hlow.
  assert (Hk : (Unsigned.usize (Pos.to_uint p) <= k)%N).
  { destruct (N.le_gt_cases (Unsigned.usize (Pos.to_uint p)) k) as [|Hgt]; [done|].
    assert (10 ^ k <= 10 ^ (Unsigned.usize (Pos.to_uint p) - 1))%N
      by (apply N.pow_le_mono_r; lia).
    assert (Z.of_N (10 ^ k) <= Z.pos p) by lia.
    rewrite N2Z.inj_pow in *. simpl Z.of_N in *. lia. }
  assert (Hlen : String.length (NilZero.string_of_uint (Pos.to_uint p))
                 = N.to_nat (Unsigned.usize (Pos.to_uint p))).
  { unfold NilZero.string_of_uint.
    destruct (Pos.to_uint p) eqn:E; try done; rewrite <- E;
      apply string_of_uint_length. }
  rewrite Hlen.
  destruct (Pos.to_uint p); try done; simpl Unsigned.usize in *; lia.
Qed.

Lemma digit_ascii (s : string) :
  all_chars is_digit s = true -> all_chars is_ascii s = true.
Proof.
  apply all_chars_impl.
  intros [[] [] [] [] [] [] [] []]; vm_compute; congruence.
Qed.

Lemma str_ascii (n : Z) : 0 <= n -> all_chars is_ascii (PyInt.str n) = true.
Proof.
  intros Hn. apply digit_ascii.
  by destruct (andb_prop _ _ (str_digits n Hn)).
Qed.

Lemma date_text_offsets : forallb date_text_check (range 8001) = true.
Proof. vm_compute. reflexivity. Qed.

Lemma date_text (offset : Z) (dt : Calendar.date) :
  0 <= offset <= 8000 ->
  Calendar.add_days epoch offset = Some dt ->
  String.length (Calendar.strftime_ymd dt) = 10%nat
  /\ all_chars is_ascii (Calendar.strftime_ymd dt) = true.
Proof.
  intros Ho Hdt.
  assert (Hc : date_text_check offset = true).
  { apply (proj1 (forallb_forall _ _) date_text_offsets).
    apply in_map_iff. exists (Z.to_nat offset). split; [lia|].
    apply in_seq. lia. }
  unfold date_text_check in Hc. rewrite Hdt in Hc.
  apply andb_prop in Hc as [Hlen Hascii]. split; [|done].
  by apply Nat.eqb_eq.
Qed.

(** A record's line has between 52 and 75 characters, all ASCII. *)
Lemma is_record_line (row : list string) :
  is_record row ->
  (52 <= String.length (line_of row) <= 75)%nat
  /\ all_chars is_ascii (line_of row) = true.
Proof.
  intros (offset & dt & n1 & n2 & n3 & n4 & n5
          & Ho & Hdt & H1 & H2 & H3 & H4 & H5 & ->).
  destruct (date_text offset dt Ho Hdt) as [Hlen Hascii].
  pose proof (str_length_bound n1 7 ltac:(simpl; lia)).
  pose proof (str_length_bound n2 7 ltac:(simpl; lia)).
  pose proof (str_length_bound n3 7 ltac:(simpl; lia)).
  pose proof (str_length_bound n4 4 ltac:(simpl; lia)).
  pose proof (str_length_bound n5 3 ltac:(simpl; lia)).
  unfold line_of, join. split.
  - rewrite !length_app, Hlen. simpl String.length. simpl N.to_nat in *. lia.
  - rewrite !all_chars_app, Hascii, !str_ascii by lia. reflexivity.
Qed.

Lemma plain_text_size (rows : list (list string)) :
  Forall is_record rows ->
  (54 * length rows <= String.length (plain_text rows) <= 77 * length rows)%nat
  /\ all_chars is_ascii (plain_text rows) = true.
Proof.
  unfold plain_text.
  induction 1 as [|r rows Hr _ IH]; simpl; [split; [lia|done]|].
  destruct (is_record_line r Hr) as [Hlen Hascii]. destruct IH as [IHlen IHascii].
  fold (line_of r). split.
  - rewrite !length_app. simpl String.length. lia.
  - rewrite !all_chars_app, Hascii, IHascii. reflexivity.
Qed.

End SizeFacts.

(** ** Further theorems *)

Lemma plain_text_app (a b : list (list string)) :
  plain_text (a ++ b) = plain_text a +:+ plain_text b.
Proof.
  unfold plain_text. induction a as [|r a IH]; simpl; [done|].
  by rewrite IH, !append_assoc.
Qed.

Lemma fault_free_le {G} (a b : nat) (w : world G) :
  fault_free (a + b) w = true -> fault_free a w = true.
Proof. rewrite fault_free_add. by intros [? _]%andb_prop. Qed.

Section Extras.

Context {G : Type}.
Variable randint : Z -> Z -> G -> Z * G.
Hypothesis randint_ok : randint_in_range randint.
Implicit Types (w : world G) (path : string) (N : Z).

(** A run is its [with] block, then the [print] when the block returns. *)
Lemma run_unfold path N w :
  run randint path N w
  = match with_open path (Some EmptyString) (fun f =>
            let wr := Writer f (Csv.excel ";") in
            for_each (range N) (loop_body randint wr)) w with
    | (Return _, w1) => print completion_message w1
    | (Raise e, w1) => (Raise e, w1)
    end.
Proof. reflexivity. Qed.

(** X1. A run whose file operations succeed, on a standard output that
    takes the completion line, writes exactly the records
    generated one after the other from the generator's state, in that
    order; it leaves the generator in the state after [N] records and has
    used [N + 2] file operations: the open, one write per record, the
    close. *)
Theorem run_writes_generated_rows path N w :
  fault_free (Z.to_nat N + 2) w = true ->
  stdout_fault w completion_message = None ->
  exists w',
    run randint path N w = (Return tt, w')
    /\ fs w' !! path = Some (plain_text (generated randint (Z.to_nat N) (rng w)))
    /\ length (generated randint (Z.to_nat N) (rng w)) = Z.to_nat N
    /\ rng w' = Nat.iter (Z.to_nat N) (next_state randint) (rng w)
    /\ io_faults w' = drop (Z.to_nat N + 2) (io_faults w).
Proof.
  intros Hff Hso. eexists. split; [by apply run_exact|].
  split; [apply lookup_insert_eq|].
  split; [by apply generated_length|]. by split.
Qed.

(** X2. Reading the file of a successful run (no failing file operation,
    the completion line printed) back, line by line and each
    line split at the semicolons, gives the generated records again: same
    number, same order, same fields. *)
Theorem file_reads_back path N w :
  fault_free (Z.to_nat N + 2) w = true ->
  stdout_fault w completion_message = None ->
  exists w' content,
    run randint path N w = (Return tt, w')
    /\ fs w' !! path = Some content
    /\ map (Csv.fields (Csv.excel ";")) (Text.lines content)
       = generated randint (Z.to_nat N) (rng w).
Proof.
  intros Hff Hso. eexists _, _. split; [by apply run_exact|].
  split; [apply lookup_insert_eq|].
  pose proof (generated_records randint randint_ok (Z.to_nat N) (rng w)) as Hrows.
  rewrite (lines_of_records _ Hrows), map_map.
  induction Hrows as [|r rows Hr _ IH]; simpl; [done|].
  by rewrite (is_record_fields r Hr), IH.
Qed.

(** X3. A generated record is a lossless text of its six draws: the reader
    gets back from it the day offset and the five integers exactly as
    [randint] returned them, call after call; and generating the record
    changes nothing in the world but the generator, which is left in the
    state after the sixth draw. *)
Theorem record_decodes (i : Z) w :
  exists row,
    generate_record randint i w
    = (Return row, set_rng (six_draws randint (rng w)).2 w)
    /\ decode_record row = Some (six_draws randint (rng w)).1.
Proof.
  destruct (record_from_draws randint randint_ok (rng w)) as (row & Hfrom & Hnext & Hdec).
  destruct (gen_exact randint randint_ok i (rng w)) as (row' & _ & Hfrom' & Hgen).
  rewrite Hfrom in Hfrom'. injection Hfrom' as <-.
  exists row. split; [|done]. rewrite <- Hnext. by apply Hgen.
Qed.

(** X4. Runs compose, when no file operation fails and standard output
    takes the completion line: a run of [N1] records followed by a run of
    [N2] records into another file produces, put end to end, the text that one
    run of [N1 + N2] records produces from the same generator state, and
    leaves the generator in the same state. *)
Theorem split_run (p p1 p2 : string) (N1 N2 : Z) w :
  0 <= N1 -> 0 <= N2 ->
  fault_free (Z.to_nat N1 + Z.to_nat N2 + 4) w = true ->
  stdout_fault w completion_message = None ->
  exists wa wb wc c1 c2,
    run randint p1 N1 w = (Return tt, wa)
    /\ run randint p2 N2 wa = (Return tt, wb)
    /\ run randint p (N1 + N2) w = (Return tt, wc)
    /\ fs wa !! p1 = Some c1
    /\ fs wb !! p2 = Some c2
    /\ fs wc !! p = Some (c1 +:+ c2)
    /\ rng wc = rng wb.
Proof.
  intros H1 H2 Hff Hso.
  assert (Hab : fault_free ((Z.to_nat N1 + 2) + (Z.to_nat N2 + 2)) w = true)
    by (rewrite <- Hff; f_equal; lia).
  rewrite fault_free_add in Hab. apply andb_prop in Hab as [Ha Hb].
  assert (Hc : fault_free (Z.to_nat (N1 + N2) + 2) w = true).
  { apply (fault_free_le _ 2). rewrite <- Hff. f_equal. lia. }
  pose proof (run_exact randint randint_ok p1 N1 w Ha Hso) as Hrun1.
  match type of Hrun1 with _ = (_, ?x) => set (wa := x) in * end.
  pose proof (run_exact randint randint_ok p2 N2 wa Hb Hso) as Hrun2.
  pose proof (run_exact randint randint_ok p (N1 + N2) w Hc Hso) as Hrun3.
  eexists wa, _, _, _, _. split; [exact Hrun1|]. split; [exact Hrun2|].
  split; [exact Hrun3|]. split; [apply lookup_insert_eq|].
  split; [apply lookup_insert_eq|]. simpl.
  rewrite Z2Nat.inj_add by lia. split.
  - by rewrite lookup_insert_eq, generated_add, plain_text_app.
  - by rewrite Nat.add_comm, Nat.iter_add.
Qed.

(** X5. The text written depends on the generator's state and the record
    count alone: two successful runs from the same generator state write
    the same text and leave the same generator state, whatever the paths,
    the earlier contents of the file systems, the platforms' line
    separators and what was printed before. *)
Theorem content_depends_on_seed_only (p1 p2 : string) N (w1 w2 : world G) :
  rng w1 = rng w2 ->
  fault_free (Z.to_nat N + 2) w1 = true ->
  fault_free (Z.to_nat N + 2) w2 = true ->
  exists content,
    fs (run randint p1 N w1).2 !! p1 = Some content
    /\ fs (run randint p2 N w2).2 !! p2 = Some content
    /\ rng (run randint p1 N w1).2 = rng (run randint p2 N w2).2.
Proof.
  intros Hg Hff1 Hff2.
  destruct (run_exact_world randint randint_ok p1 N w1 Hff1) as [-> ->].
  destruct (run_exact_world randint randint_ok p2 N w2 Hff2) as [-> ->].
  rewrite Hg. eexists. split; [apply lookup_insert_eq|].
  split; [apply lookup_insert_eq|done].
Qed.

(** X10. The file of a successful run (no failing file operation, the
    completion line printed) has between 54 and 77 characters per record,
    line terminators included, and each of its lines has between 52 and 75
    characters. *)
Theorem file_size_bounds path N w :
  fault_free (Z.to_nat N + 2) w = true ->
  stdout_fault w completion_message = None ->
  exists w' content,
    run randint path N w = (Return tt, w')
    /\ fs w' !! path = Some content
    /\ (54 * Z.to_nat N <= String.length content <= 77 * Z.to_nat N)%nat
    /\ Forall (fun l => (52 <= String.length l <= 75)%nat) (Text.lines content).
Proof.
  intros Hff Hso. eexists _, _. split; [by apply run_exact|].
  split; [apply lookup_insert_eq|].
  pose proof (generated_records randint randint_ok (Z.to_nat N) (rng w)) as Hrows.
  destruct (plain_text_size _ Hrows) as [Hsize _].
  rewrite (generated_length randint randint_ok) in Hsize. split; [done|].
  rewrite (lines_of_records _ Hrows). apply Forall_map.
  eapply Forall_impl; [exact Hrows|]. simpl.
  intros r Hr. by destruct (is_record_line r Hr).
Qed.

(** X11. Every character of the file of a successful run (no failing file
    operation, the completion line printed) is ASCII. *)
Theorem file_is_ascii path N w :
  fault_free (Z.to_nat N + 2) w = true ->
  stdout_fault w completion_message = None ->
  exists w' content,
    run randint path N w = (Return tt, w')
    /\ fs w' !! path = Some content
    /\ Text.all_chars is_ascii content = true.
Proof.
  intros Hff Hso. eexists _, _. split; [by apply run_exact|].
  split; [apply lookup_insert_eq|].
  pose proof (generated_records randint randint_ok (Z.to_nat N) (rng w)) as Hrows.
  by destruct (plain_text_size _ Hrows) as [_ Hascii].
Qed.

(** X6. Whatever the random source returns and whichever file operations
    fail, a run changes no file other than the one at its output path and
    leaves the platform's line separator alone. *)
Theorem run_leaves_other_files path N w :
  os_linesep (run randint path N w).2 = os_linesep w
  /\ forall p, p <> path -> fs (run randint path N w).2 !! p = fs w !! p.
Proof.
  rewrite run_unfold.
  destruct (tame_with_block randint path N w) as [(_ & _ & Hsep & Hfs) _].
  match goal with |- context [with_open ?a ?b ?c w] =>
    destruct (with_open a b c w) as [[[]|e] w1] end; simpl in *; [|by split].
  unfold print. by destruct (stdout_fault w1 _).
Qed.


(** X8. A record count of zero or less draws nothing from the random
    source, whatever the source is.  When the open and the close succeed,
    the run leaves the file empty and the generator as it was; it then
    prints the completion line and returns, or, when standard output raises
    on the line, ends in that exception with nothing printed. *)
Theorem run_nonpositive_count path N w :
  N <= 0 ->
  fault_free 2 w = true ->
  (stdout_fault w completion_message = None ->
   run randint path N w
   = (Return tt,
      World (rng w) (<[path := EmptyString]> (fs w)) (drop 2 (io_faults w))
        (os_linesep w) (stdout_fault w)
        (trace w ++ [EvOpen path; EvClose path; EvPrint completion_message])))
  /\ (forall e,
        stdout_fault w completion_message = Some e ->
        run randint path N w
        = (Raise e,
           World (rng w) (<[path := EmptyString]> (fs w)) (drop 2 (io_faults w))
             (os_linesep w) (stdout_fault w)
             (trace w ++ [EvOpen path; EvClose path]))).
Proof.
  intros HN Hff.
  change 2%nat with (1 + 1)%nat in Hff.
  rewrite fault_free_add in Hff. apply andb_prop in Hff as [Hff1 Hff2].
  assert (Hblock :
    with_open path (Some EmptyString) (fun f =>
      let wr := Writer f (Csv.excel ";") in
      for_each (range N) (loop_body randint wr)) w
    = (Return tt,
       World (rng w) (<[path := EmptyString]> (fs w)) (drop 2 (io_faults w))
         (os_linesep w) (stdout_fault w)
         (trace w ++ [EvOpen path; EvClose path]))).
  { unfold with_open, range. replace (Z.to_nat N) with 0%nat by lia. simpl for_each.
    erewrite bind_return by (by apply (open_w_ok path _ 0)). cbv beta.
    unfold mret at 1, M_ret at 1.
    erewrite bind_return by (by apply (f_close_ok path _ 0)).
    unfold mret, M_ret. simpl. do 2 f_equal.
    - by rewrite drop_drop.
    - by rewrite <- !app_assoc. }
  rewrite run_unfold, Hblock. unfold print, log. simpl. split.
  - intros ->. do 2 f_equal. by rewrite <- !app_assoc.
  - by intros e ->.
Qed.

(** X9. When opening the output file fails, the run raises [OSError] at
    once: no file is created or truncated, no number is drawn, nothing is
    printed. *)
Theorem open_failure path N w (rest : list bool) :
  io_faults w = true :: rest ->
  run randint path N w = (Raise OSError, set_io_faults rest w).
Proof.
  intros Hfl. unfold run, with_open, open_w.
  do 3 apply bind_raise. unfold io_check. by rewrite Hfl.
Qed.

End Extras.

(** ** The further theorems at concrete inputs *)

(** Two records from the generator seeded with 7. *)
Lemma run_writes_generated_rows_witness :
  randint_in_range lcg_randint
  /\ fault_free (Z.to_nat 2 + 2) (initial_world 7) = true
  /\ stdout_fault (initial_world 7) completion_message = None
  /\ generated lcg_randint (Z.to_nat 2) 7
     = [["2000-01-08"; "Name168117"; "Surname666334"; "Patronymic265939";
         "City572"; "Country41"];
        ["2019-01-16"; "Name423263"; "Surname449088"; "Patronymic310797";
         "City718"; "Country51"]]
  /\ exists w',
       run lcg_randint "test_large.csv" 2 (initial_world 7) = (Return tt, w')
       /\ fs w' !! "test_large.csv"
          = Some (plain_text (generated lcg_randint (Z.to_nat 2) (rng (initial_world 7))))
       /\ length (generated lcg_randint (Z.to_nat 2) (rng (initial_world 7))) = Z.to_nat 2
       /\ rng w' = Nat.iter (Z.to_nat 2) (next_state lcg_randint) (rng (initial_world 7))
       /\ io_faults w' = drop (Z.to_nat 2 + 2) (io_faults (initial_world 7)).
Proof.
  split; [exact lcg_in_range|]. split; [reflexivity|]. split; [reflexivity|].
  split; [vm_compute; reflexivity|].
  exact (run_writes_generated_rows lcg_randint lcg_in_range
           "test_large.csv" 2 (initial_world 7) eq_refl eq_refl).
Defined.

Lemma file_reads_back_witness :
  randint_in_range lcg_randint
  /\ fault_free (Z.to_nat 3 + 2) (initial_world 7) = true
  /\ stdout_fault (initial_world 7) completion_message = None
  /\ exists w' content,
       run lcg_randint "test_large.csv" 3 (initial_world 7) = (Return tt, w')
       /\ fs w' !! "test_large.csv" = Some content
       /\ map (Csv.fields (Csv.excel ";")) (Text.lines content)
          = generated lcg_randint (Z.to_nat 3) (rng (initial_world 7)).
Proof.
  split; [exact lcg_in_range|]. split; [reflexivity|]. split; [reflexivity|].
  exact (file_reads_back lcg_randint lcg_in_range
           "test_large.csv" 3 (initial_world 7) eq_refl eq_refl).
Defined.

Lemma record_decodes_witness :
  randint_in_range lcg_randint
  /\ (six_draws lcg_randint 7).1 = [7; 168117; 666334; 265939; 572; 41]
  /\ exists row,
       generate_record lcg_randint 0 (initial_world 7)
       = (Return row,
          set_rng (six_draws lcg_randint (rng (initial_world 7))).2 (initial_world 7))
       /\ decode_record row = Some (six_draws lcg_randint (rng (initial_world 7))).1.
Proof.
  split; [exact lcg_in_range|]. split; [vm_compute; reflexivity|].
  exact (record_decodes lcg_randint lcg_in_range 0 (initial_world 7)).
Defined.

(** Two records into one file and three into another, against five into a
    third. *)
Lemma split_run_witness :
  randint_in_range lcg_randint
  /\ 0 <= 2 /\ 0 <= 3
  /\ fault_free (Z.to_nat 2 + Z.to_nat 3 + 4) (initial_world 7) = true
  /\ stdout_fault (initial_world 7) completion_message = None
  /\ exists wa wb wc c1 c2,
       run lcg_randint "a.csv" 2 (initial_world 7) = (Return tt, wa)
       /\ run lcg_randint "b.csv" 3 wa = (Return tt, wb)
       /\ run lcg_randint "test_large.csv" (2 + 3) (initial_world 7) = (Return tt, wc)
       /\ fs wa !! "a.csv" = Some c1
       /\ fs wb !! "b.csv" = Some c2
       /\ fs wc !! "test_large.csv" = Some (c1 +:+ c2)
       /\ rng wc = rng wb.
Proof.
  split; [exact lcg_in_range|]. split; [lia|]. split; [lia|].
  split; [reflexivity|]. split; [reflexivity|].
  exact (split_run lcg_randint lcg_in_range "test_large.csv" "a.csv" "b.csv"
           2 3 (initial_world 7) ltac:(lia) ltac:(lia) eq_refl eq_refl).
Defined.

(** The same seed on a POSIX platform with an empty file system, and on a
    platform whose separator is CRLF where the file already has content. *)
Lemma content_depends_on_seed_only_witness :
  randint_in_range lcg_randint
  /\ rng (initial_world 7)
     = rng (set_os_linesep Text.CRLF
              (set_fs {["b.csv" := "old"]} (initial_world 7)))
  /\ fault_free (Z.to_nat 3 + 2) (initial_world 7) = true
  /\ fault_free (Z.to_nat 3 + 2)
       (set_os_linesep Text.CRLF
          (set_fs {["b.csv" := "old"]} (initial_world 7))) = true
  /\ exists content,
       fs (run lcg_randint "a.csv" 3 (initial_world 7)).2 !! "a.csv" = Some content
       /\ fs (run lcg_randint "b.csv" 3
               (set_os_linesep Text.CRLF
                  (set_fs {["b.csv" := "old"]} (initial_world 7)))).2 !! "b.csv"
          = Some content
       /\ rng (run lcg_randint "a.csv" 3 (initial_world 7)).2
          = rng (run lcg_randint "b.csv" 3
                   (set_os_linesep Text.CRLF
                      (set_fs {["b.csv" := "old"]} (initial_world 7)))).2.
Proof.
  split; [exact lcg_in_range|]. split; [reflexivity|].
  split; [reflexivity|]. split; [reflexivity|].
  apply (content_depends_on_seed_only lcg_randint lcg_in_range); reflexivity.
Defined.

(** The script as it stands: between 54 and 77 million characters. *)
Lemma file_size_bounds_witness :
  randint_in_range lcg_randint
  /\ fault_free (Z.to_nat 1000000 + 2) (initial_world 7) = true
  /\ stdout_fault (initial_world 7) completion_message = None
  /\ exists w' content,
       run lcg_randint "test_large.csv" 1000000 (initial_world 7) = (Return tt, w')
       /\ fs w' !! "test_large.csv" = Some content
       /\ (54 * Z.to_nat 1000000 <= String.length content <= 77 * Z.to_nat 1000000)%nat
       /\ Forall (fun l => (52 <= String.length l <= 75)%nat) (Text.lines content).
Proof.
  split; [exact lcg_in_range|]. split; [vm_compute; reflexivity|].
  split; [reflexivity|].
  apply (file_size_bounds lcg_randint lcg_in_range
           "test_large.csv" 1000000 (initial_world 7));
    [vm_compute; reflexivity | reflexivity].
Defined.

Lemma file_is_ascii_witness :
  randint_in_range lcg_randint
  /\ fault_free (Z.to_nat 3 + 2) (initial_world 7) = true
  /\ stdout_fault (initial_world 7) completion_message = None
  /\ exists w' content,
       run lcg_randint "test_large.csv" 3 (initial_world 7) = (Return tt, w')
       /\ fs w' !! "test_large.csv" = Some content
       /\ Text.all_chars is_ascii content = true.
Proof.
  split; [exact lcg_in_range|]. split; [reflexivity|]. split; [reflexivity|].
  exact (file_is_ascii lcg_randint lcg_in_range
           "test_large.csv" 3 (initial_world 7) eq_refl eq_refl).
Defined.

(** A negative count with a source that does not meet the contract of
    [randint], on a standard output that takes any text and on one that
    takes ASCII only. *)
Lemma run_nonpositive_count_witness :
  -5 <= 0
  /\ fault_free 2 (initial_world tt) = true
  /\ stdout_fault (initial_world tt) completion_message = None
  /\ stdout_fault (set_stdout_fault ascii_stdout (initial_world tt)) completion_message
     = Some ValueError
  /\ run far_randint "test_large.csv" (-5) (initial_world tt)
     = (Return tt,
        World (rng (initial_world tt))
          (<["test_large.csv" := EmptyString]> (fs (initial_world tt)))
          (drop 2 (io_faults (initial_world tt)))
          (os_linesep (initial_world tt))
          (stdout_fault (initial_world tt))
          (trace (initial_world tt)
             ++ [EvOpen "test_large.csv"; EvClose "test_large.csv";
                 EvPrint completion_message]))
  /\ run far_randint "test_large.csv" (-5)
       (set_stdout_fault ascii_stdout (initial_world tt))
     = (Raise ValueError,
        World (rng (initial_world tt))
          (<["test_large.csv" := EmptyString]> (fs (initial_world tt)))
          (drop 2 (io_faults (initial_world tt)))
          (os_linesep (initial_world tt))
          ascii_stdout
          (trace (initial_world tt)
             ++ [EvOpen "test_large.csv"; EvClose "test_large.csv"])).
Proof.
  split; [lia|]. split; [reflexivity|]. split; [reflexivity|].
  split; [vm_compute; reflexivity|]. split.
  - exact (proj1 (run_nonpositive_count far_randint "test_large.csv" (-5)
                    (initial_world tt) ltac:(lia) eq_refl) eq_refl).
  - apply (proj2 (run_nonpositive_count far_randint "test_large.csv" (-5)
                    (set_stdout_fault ascii_stdout (initial_world tt))
                    ltac:(lia) eq_refl) ValueError).
    vm_compute; reflexivity.
Defined.


Lemma open_failure_witness :
  io_faults (set_io_faults [true; false] (initial_world 7)) = true :: [false]
  /\ run lcg_randint "test_large.csv" 1000000
       (set_io_faults [true; false] (initial_world 7))
     = (Raise OSError,
        set_io_faults [false] (set_io_faults [true; false] (initial_world 7))).
Proof.
  split; [reflexivity|].
  exact (open_failure lcg_randint "test_large.csv" 1000000
           (set_io_faults [true; false] (initial_world 7)) [false] eq_refl).
Defined.

(** Both bounds on the length of a line are reached: 52 characters when
    every draw returns its lower bound, 75 when every draw returns its
    upper bound. *)
Example line_length_extremes :
  generated lower_randint 1 tt
  = [["2000-01-01"; "Name1"; "Surname1"; "Patronymic1"; "City1"; "Country1"]]
  /\ String.length
       (line_of ["2000-01-01"; "Name1"; "Surname1"; "Patronymic1"; "City1";
                 "Country1"]) = 52%nat
  /\ generated upper_randint 1 tt
     = [["2021-11-26"; "Name1000000"; "Surname1000000"; "Patronymic1000000";
         "City1000"; "Country100"]]
  /\ String.length
       (line_of ["2021-11-26"; "Name1000000"; "Surname1000000";
                 "Patronymic1000000"; "City1000"; "Country100"]) = 75%nat.
Proof. repeat split; vm_compute; reflexivity. Qed.
